(** * dragonffi, Python bindings: the typed memory handles of [cobj.cpp]

    A shallow embedding of [bindings/python/cobj.cpp]: the value setter and
    getter, the argument converter, the call protocol of [CFunction::call],
    the memory views of pointer handles and the casts between handles.

    Conventions.
    - A native value of a C type of [n] bytes is the unsigned integer of its
      [8 * n] bits; memory is a finite map from addresses to bytes, an
      address that was never written reads as [0], and multi-byte values
      are stored little-endian.
    - A C++ function that may throw is a function into [result]; a function
      that also writes memory, or appends to the holders of a call, is a
      state transformer [M S A := S -> result A * S], so that the state at
      the moment of the throw stays visible.
    - What the source takes from headers that are not part of it
      ([dffi/types.h], [cobj.h], [dispatcher.h], [errors.h], pybind11, the
      CPython API) is modelled in the first part of the file, each piece
      under a comment that says where it comes from. *)

From stdpp Require Import gmap strings list pretty.

Local Open Scope Z_scope.

(** ** Exceptions and the state-and-exception monad *)

(** Modelled from the spec: [TypeError], the exception of [errors.h] (not
    part of the sources), the only one [cobj.cpp] throws itself, with its
    message.  The other three are pybind11's: [cast_error] is thrown by a
    failed [handle::cast<T>()], [value_error] by the character caster, and
    [error_already_set] carries an exception raised by the host runtime (a
    [BufferError] of the buffer protocol, for instance). *)
Inductive exn :=
| TypeError (msg : string)
| cast_error
| value_error
| error_already_set.

Inductive result (A : Type) :=
| Ok (a : A)
| Throw (e : exn).
Arguments Ok {A} a.
Arguments Throw {A} e.

Definition M (S A : Type) : Type := S -> result A * S.

Definition ret {S A} (a : A) : M S A := fun s => (Ok a, s).
Definition throw {S A} (e : exn) : M S A := fun s => (Throw e, s).
Definition bind {S A B} (m : M S A) (k : A -> M S B) : M S B :=
  fun s => match m s with
           | (Ok a, s') => k a s'
           | (Throw e, s') => (Throw e, s')
           end.
Definition lift {S A} (r : result A) : M S A := fun s => (r, s).
Definition gets {S A} (f : S -> A) : M S A := fun s => (Ok (f s), s).
Definition modify {S} (f : S -> S) : M S unit := fun s => (Ok tt, f s).

#[global] Instance M_ret {S} : MRet (M S) := @ret S.
#[global] Instance M_bind {S} : MBind (M S) := fun A B k m => bind m k.

(** ** Type descriptors *)

(** Modelled from the spec: the kinds of [BasicType] of [dffi/types.h],
    which is not part of the sources: the signed and unsigned integers of
    8, 16, 32 and 64 bits, the two floats and [char], which are the kinds
    [getFormatDescriptor] enumerates. *)
Inductive BasicKind :=
| Char | UInt8 | UInt16 | UInt32 | UInt64
| Int8 | Int16 | Int32 | Int64
| Float32 | Float64.

(** Modelled from the spec: the type descriptors of [dffi/types.h].  A
    descriptor is one of Basic, Enum, Pointer, Array, Struct, Union and
    Function; a pointer carries its pointee with the const qualifier, an
    array its element type and count, a composite its fields (name, type,
    offset) with its size and alignment, a function its return type, if
    any, and its parameters. *)
#[warnings="-register-all"]
Inductive Type_ :=
| BasicType (Kind : BasicKind)
| EnumType
| PointerType (Pointee : QualType)
| ArrayType (Elt : Type_) (N : Z)
| StructType (C : Composite)
| UnionType (C : Composite)
| FunctionType (Ret : option Type_) (Params : list QualType)
with QualType :=
| mkQualType (Ty : Type_) (Const : bool)
with Composite :=
| mkComposite (Name : string) (Fields : list (string * Type_ * Z))
              (Size Align : Z).

Definition getType (Q : QualType) : Type_ := let 'mkQualType Ty _ := Q in Ty.
Definition hasConst (Q : QualType) : bool := let 'mkQualType _ c := Q in c.

(** The platform: the width of an address in bytes, [sizeof(uintptr_t)],
    and whether plain [char] is a signed type. *)
Class Platform := { sizeof_uintptr_t : Z; char_is_signed : bool }.

(** The C types the dispatcher instantiates the [case_basic] templates
    with, and [uintptr_t], which the pointer cast uses. *)
Inductive CType :=
| c_char | c_uint8_t | c_uint16_t | c_uint32_t | c_uint64_t
| c_int8_t | c_int16_t | c_int32_t | c_int64_t
| c_float | c_double
| c_uintptr_t.

(** [sizeof(T)]. *)
Definition sizeof `{Platform} (T : CType) : Z :=
  match T with
  | c_char | c_uint8_t | c_int8_t => 1
  | c_uint16_t | c_int16_t => 2
  | c_uint32_t | c_int32_t | c_float => 4
  | c_uint64_t | c_int64_t | c_double => 8
  | c_uintptr_t => sizeof_uintptr_t
  end.

(** Modelled from the spec: the C type at which [TypeDispatcher]
    instantiates [case_basic] for each Basic kind. *)
Definition CTypeOf (Kind : BasicKind) : CType :=
  match Kind with
  | Char => c_char
  | UInt8 => c_uint8_t | UInt16 => c_uint16_t
  | UInt32 => c_uint32_t | UInt64 => c_uint64_t
  | Int8 => c_int8_t | Int16 => c_int16_t
  | Int32 => c_int32_t | Int64 => c_int64_t
  | Float32 => c_float | Float64 => c_double
  end.

(** Modelled from the spec: [EnumType::IntType] is [int], and
    [EnumType::getBasicType] is the descriptor of [int]. *)
Definition EnumType_IntType : CType := c_int32_t.
Definition EnumType_getBasicType : Type_ := BasicType Int32.

Section Layout.
Context `{Platform}.

(** Modelled from the spec: [Type::getSize] of [dffi/types.h].  The
    layout of a composite is computed by the type system and recorded in
    its descriptor; a function type occupies no storage. *)
Fixpoint getSize (Ty : Type_) : Z :=
  match Ty with
  | BasicType Kind => sizeof (CTypeOf Kind)
  | EnumType => sizeof EnumType_IntType
  | PointerType _ => sizeof_uintptr_t
  | ArrayType Elt N => N * getSize Elt
  | StructType (mkComposite _ _ Size _) => Size
  | UnionType (mkComposite _ _ Size _) => Size
  | FunctionType _ _ => 0
  end.

(** Modelled from the spec: [Type::getAlign] of [dffi/types.h]. *)
Fixpoint getAlign (Ty : Type_) : Z :=
  match Ty with
  | BasicType Kind => sizeof (CTypeOf Kind)
  | EnumType => sizeof EnumType_IntType
  | PointerType _ => sizeof_uintptr_t
  | ArrayType Elt _ => getAlign Elt
  | StructType (mkComposite _ _ _ Align) => Align
  | UnionType (mkComposite _ _ _ Align) => Align
  | FunctionType _ _ => 1
  end.
End Layout.

(** ** Memory *)

Abbreviation mem := (gmap Z Z).

Definition load_byte (m : mem) (p : Z) : Z := default 0 (m !! p).

Fixpoint load_bytes (m : mem) (p : Z) (n : nat) : list Z :=
  match n with
  | O => []
  | S n' => load_byte m p :: load_bytes m (p + 1) n'
  end.

Fixpoint store_bytes (m : mem) (p : Z) (bs : list Z) : mem :=
  match bs with
  | [] => m
  | b :: bs' => store_bytes (<[p := b]> m) (p + 1) bs'
  end.

(** The [n] little-endian bytes of the bit pattern [v], and back. *)
Fixpoint to_bytes (n : nat) (v : Z) : list Z :=
  match n with
  | O => []
  | S n' => v mod 256 :: to_bytes n' (v / 256)
  end.

Fixpoint of_bytes (bs : list Z) : Z :=
  match bs with
  | [] => 0
  | b :: bs' => b + 256 * of_bytes bs'
  end.

(** [*reinterpret_cast<T*>(Ptr)] read, and assigned [v]. *)
Definition load `{Platform} (T : CType) (m : mem) (p : Z) : Z :=
  of_bytes (load_bytes m p (Z.to_nat (sizeof T))).

Definition store `{Platform} (T : CType) (p : Z) (v : Z) (m : mem) : mem :=
  store_bytes m p (to_bytes (Z.to_nat (sizeof T)) v).

(** [memcpy(Dst, Src, N)]. *)
Definition memcpy (Dst Src N : Z) (m : mem) : mem :=
  store_bytes m Dst (load_bytes m Src (Z.to_nat N)).

(** ** Handles and host values *)

(** Modelled from the spec: [Data<T>] of [cobj.h], which is not part of the
    sources, for a scalar or pointer [T]: either a view of storage at an
    address, or storage of its own holding a value ([emplace_owned]). *)
Inductive Data :=
| view (Ptr : Z)
| emplace_owned (V : Z).

(** Modelled from the spec: [Data<void>] of [cobj.h], the block of an
    array or composite: an address that the handle either views or
    owns. *)
Inductive DataVoid :=
| view_void (Ptr : Z)
| owned_void (Ptr : Z).

(** Modelled from the spec: a native function bound to its type and
    address, [FunctionType::getFunction(Ptr)]. *)
Record NativeFunc := getFunction {
  getReturnType : option Type_;
  getParams : list QualType;
  nf_addr : Z
}.

(** Modelled from the spec: the handle classes of [cobj.h].  A handle is
    a type descriptor together with its data; [CBasicObj] is a template
    over the C type of the scalar. *)
Inductive CObj :=
| CBasicObj (T : CType) (Ty : Type_) (D : Data)
| CPointerObj (Ty : Type_) (D : Data)
| CStructObj (Ty : Type_) (D : DataVoid)
| CUnionObj (Ty : Type_) (D : DataVoid)
| CArrayObj (Ty : Type_) (D : DataVoid)
| CFunction (NF : NativeFunc).

(** [py::buffer_info] of a one-dimensional request: only the fields the
    source reads or builds. *)
Record buffer_info := mk_buffer_info {
  bi_ptr : Z;
  bi_itemsize : Z;
  bi_format : string;
  bi_ndim : Z;
  bi_size : Z
}.

(** The host values: what a [py::handle] can refer to.  A [float] is the
    bit pattern of the C [double] it holds, a [str] the list of its code
    points, a [bytes] object the address of its internal buffer and its
    content; [PyBuffer] is any other exporter of the buffer protocol (a
    [bytearray], an array) with the view it exports and whether that view
    is read-only. *)
Inductive PyObject :=
| PyNone
| PyLong (V : Z)
| PyFloat (Bits : Z)
| PyUnicode (S : list Z)
| PyBytes (ob_sval : Z) (S : list Z)
| PyBuffer (Info : buffer_info) (ReadOnly : bool)
| PyCObj (Co : CObj).

(** Modelled from the spec: [getData] of a block, its address. *)
Definition getDataVoid (D : DataVoid) : Z :=
  match D with view_void p | owned_void p => p end.

Section Handles.
Context `{Platform}.

(** Modelled from the spec: [CPointerObj::getPtr] of [cobj.h], the
    address the pointer handle holds: the content of its storage. *)
Definition getPtr (D : Data) (m : mem) : Z :=
  match D with
  | view p => load c_uintptr_t m p
  | emplace_owned v => v
  end.

(** Modelled from the spec: [CObj::getType] of [cobj.h]; the size of a
    handle is the size of its type. *)
Definition CObj_getType (Co : CObj) : Type_ :=
  match Co with
  | CBasicObj _ Ty _ | CPointerObj Ty _ | CStructObj Ty _
  | CUnionObj Ty _ | CArrayObj Ty _ => Ty
  | CFunction NF => FunctionType (getReturnType NF) (getParams NF)
  end.

(** Modelled from the spec: [CObj::getSize] of [cobj.h]. *)
Definition CObj_getSize (Co : CObj) : Z := getSize (CObj_getType Co).
End Handles.

(** ** The casters of pybind11

    [handle::cast<T>()] for an arithmetic [T] and [py::cast] of a value of
    type [T].  An integer type accepts a host integer within its range;
    [char] accepts a string of one code point below 256, or a [bytes]
    object of one byte, and is returned as a string of one code point;
    [float] and [double] accept a host float or integer and convert it as
    C++ does, rounding to nearest, ties to even. *)

Definition is_signed (T : CType) : bool :=
  match T with
  | c_int8_t | c_int16_t | c_int32_t | c_int64_t => true
  | _ => false
  end.

Section Floats.
(** An IEEE 754 binary format with [eb] exponent bits and [mb] mantissa
    bits. *)
Variables eb mb : Z.

Definition bias : Z := 2 ^ (eb - 1) - 1.
(** The exponent of the unit in the last place of a subnormal. *)
Definition tmin : Z := 1 - bias - mb.
Definition sign_bit : Z := 2 ^ (eb + mb).
Definition infinity : Z := (2 ^ eb - 1) * 2 ^ mb.

Definition f_sign (b : Z) : Z := b / 2 ^ (eb + mb).
Definition f_exp (b : Z) : Z := (b / 2 ^ mb) mod 2 ^ eb.
Definition f_man (b : Z) : Z := b mod 2 ^ mb.

(** The significand and exponent of a finite [b]: its absolute value is
    [f_sig b * 2 ^ f_ulp b]. *)
Definition f_sig (b : Z) : Z :=
  if f_exp b =? 0 then f_man b else 2 ^ mb + f_man b.
Definition f_ulp (b : Z) : Z := Z.max (f_exp b) 1 - bias - mb.

(** [sig * 2 ^ ex] with sign [s], rounded to the format. *)
Definition round_float (s sig ex : Z) : Z :=
  if sig =? 0 then s * sign_bit
  else
    let t := Z.max (ex + Z.log2 sig - mb) tmin in
    let q :=
      if t <=? ex then sig * 2 ^ (ex - t)
      else
        let q0 := sig / 2 ^ (t - ex) in
        let r := sig mod 2 ^ (t - ex) in
        let half := 2 ^ (t - ex - 1) in
        if (half <? r) || ((half =? r) && Z.odd q0) then q0 + 1 else q0 in
    s * sign_bit + Z.min ((t - tmin) * 2 ^ mb + q) infinity.
End Floats.

(** The conversion of a value of the format [(eb1, mb1)] to the format
    [(eb2, mb2)]: [static_cast<float>] of a [double] and back.  A NaN keeps
    the leading bits of its payload and becomes quiet. *)
Definition convert_float (eb1 mb1 eb2 mb2 : Z) (b : Z) : Z :=
  if f_exp eb1 mb1 b =? 2 ^ eb1 - 1 then
    if f_man mb1 b =? 0 then
      f_sign eb1 mb1 b * sign_bit eb2 mb2 + infinity eb2 mb2
    else
      f_sign eb1 mb1 b * sign_bit eb2 mb2 + infinity eb2 mb2
      + Z.lor (2 ^ (mb2 - 1))
              (if mb1 <=? mb2 then f_man mb1 b * 2 ^ (mb2 - mb1)
               else f_man mb1 b / 2 ^ (mb1 - mb2))
  else
    round_float eb2 mb2 (f_sign eb1 mb1 b) (f_sig eb1 mb1 b) (f_ulp eb1 mb1 b).

Definition double_to_float : Z -> Z := convert_float 11 52 8 23.
Definition float_to_double : Z -> Z := convert_float 8 23 11 52.
Definition long_to_double (v : Z) : Z :=
  round_float 11 52 (if v <? 0 then 1 else 0) (Z.abs v) 0.

Section Casters.
Context `{Platform}.

Definition bits (T : CType) : Z := 8 * sizeof T.

Definition min_value (T : CType) : Z :=
  if is_signed T then - 2 ^ (bits T - 1) else 0.
Definition max_value (T : CType) : Z :=
  if is_signed T then 2 ^ (bits T - 1) - 1 else 2 ^ bits T - 1.

(** [Obj.cast<T>()]. *)
Definition cast_to (T : CType) (Obj : PyObject) : result Z :=
  match T with
  | c_char =>
      match Obj with
      | PyUnicode [c] | PyBytes _ [c] =>
          if (0 <=? c) && (c <? 256) then Ok c else Throw value_error
      | PyUnicode _ | PyBytes _ _ | PyNone => Throw value_error
      | _ => Throw cast_error
      end
  | c_float =>
      match Obj with
      | PyFloat b => Ok (double_to_float b)
      | PyLong v =>
          if long_to_double v mod sign_bit 11 52 =? infinity 11 52
          then Throw cast_error
          else Ok (double_to_float (long_to_double v))
      | _ => Throw cast_error
      end
  | c_double =>
      match Obj with
      | PyFloat b => Ok b
      | PyLong v =>
          if long_to_double v mod sign_bit 11 52 =? infinity 11 52
          then Throw cast_error
          else Ok (long_to_double v)
      | _ => Throw cast_error
      end
  | _ =>
      match Obj with
      | PyLong v =>
          if (min_value T <=? v) && (v <=? max_value T)
          then Ok (v mod 2 ^ bits T) else Throw cast_error
      | _ => Throw cast_error
      end
  end.

(** [py::cast(v)] for [v] of type [T]. *)
Definition py_cast (T : CType) (v : Z) : PyObject :=
  match T with
  | c_char => PyUnicode [v]
  | c_float => PyFloat (float_to_double v)
  | c_double => PyFloat v
  | _ =>
      if is_signed T && (2 ^ (bits T - 1) <=? v)
      then PyLong (v - 2 ^ bits T) else PyLong v
  end.
End Casters.

(** [Obj.cast<C const&>()] and [Obj.cast<C*>()] for a handle class [C], and
    the [dyn_cast] of the bundled pybind11.  The reference cast throws on
    anything that is not an instance of the class; the pointer cast maps
    [None] to the null pointer; [dyn_cast] returns the null pointer instead
    of throwing. *)
Inductive CObjClass :=
| CBasicObjClass (T : CType)
| CPointerObjClass | CStructObjClass | CUnionObjClass | CArrayObjClass
| CFunctionClass.

Definition CType_eqb (T1 T2 : CType) : bool :=
  match T1, T2 with
  | c_char, c_char | c_uint8_t, c_uint8_t | c_uint16_t, c_uint16_t
  | c_uint32_t, c_uint32_t | c_uint64_t, c_uint64_t
  | c_int8_t, c_int8_t | c_int16_t, c_int16_t | c_int32_t, c_int32_t
  | c_int64_t, c_int64_t | c_float, c_float | c_double, c_double
  | c_uintptr_t, c_uintptr_t => true
  | _, _ => false
  end.

Definition isinstance (Co : CObj) (C : CObjClass) : bool :=
  match Co, C with
  | CBasicObj T _ _, CBasicObjClass T' => CType_eqb T T'
  | CPointerObj _ _, CPointerObjClass
  | CStructObj _ _, CStructObjClass
  | CUnionObj _ _, CUnionObjClass
  | CArrayObj _ _, CArrayObjClass
  | CFunction _, CFunctionClass => true
  | _, _ => false
  end.

Definition dyn_cast_obj (C : CObjClass) (Obj : PyObject) : option CObj :=
  match Obj with
  | PyCObj Co => if isinstance Co C then Some Co else None
  | _ => None
  end.

Definition cast_ref (C : CObjClass) (Obj : PyObject) : result CObj :=
  match dyn_cast_obj C Obj with
  | Some Co => Ok Co
  | None => Throw cast_error
  end.

Definition cast_ptr (C : CObjClass) (Obj : PyObject) : result (option CObj) :=
  match Obj with
  | PyNone => Ok None
  | _ => match dyn_cast_obj C Obj with
         | Some Co => Ok (Some Co)
         | None => Throw cast_error
         end
  end.

(** ** The dispatcher *)

(** Modelled from the spec: the interface of a switch [S] of
    [TypeDispatcher<S>] ([dispatcher.h], not part of the sources): one
    case per kind of descriptor, [case_composite] being overloaded for
    structs and unions. *)
Class Switch (R : Type) := {
  sw_basic : CType -> BasicKind -> R;
  sw_enum : R;
  sw_pointer : QualType -> R;
  sw_struct : Composite -> R;
  sw_union : Composite -> R;
  sw_array : Type_ -> Z -> R;
  sw_func : option Type_ -> list QualType -> R
}.

(** Modelled from the spec: [TypeDispatcher<S>::switch_] of
    [dispatcher.h].  It calls the case of the descriptor's kind with the
    descriptor downcast to that kind (here: with its components), and
    instantiates [case_basic] at the C type of the Basic kind.  The other
    arguments of [switch_] are passed through: they are the arguments of
    the result [R]. *)
Definition switch_ {R} (S : Switch R) (Ty : Type_) : R :=
  match Ty with
  | BasicType Kind => sw_basic (CTypeOf Kind) Kind
  | EnumType => sw_enum
  | PointerType Pointee => sw_pointer Pointee
  | ArrayType Elt N => sw_array Elt N
  | StructType C => sw_struct C
  | UnionType C => sw_union C
  | FunctionType Ret Params => sw_func Ret Params
  end.

(** Modelled from the spec: the accessors [getPtr] and [getData] of the
    handle classes of [cobj.h].  The C++ type of the receiver excludes the
    handles of another class; here they read as [0]. *)
Definition CObj_getPtr `{Platform} (Co : CObj) (m : mem) : Z :=
  match Co with
  | CPointerObj _ D => getPtr D m
  | _ => 0
  end.

Definition CObj_getData (Co : CObj) : Z :=
  match Co with
  | CStructObj _ D | CUnionObj _ D | CArrayObj _ D => getDataVoid D
  | _ => 0
  end.

(** ** [ValueSetter] *)
Module ValueSetter.
Section Cases.
Context `{Platform}.

Definition case_basic (T : CType) (Kind : BasicKind) (Ptr : Z)
    (Obj : PyObject) : M mem unit :=
  v ← lift (cast_to T Obj);
  modify (store T Ptr v).

Definition case_pointer (Pointee : QualType) (Ptr : Z) (Obj : PyObject)
    : M mem unit :=
  PtrObj ← lift (cast_ref CPointerObjClass Obj);
  p ← gets (CObj_getPtr PtrObj);
  modify (store c_uintptr_t Ptr p).

Definition case_composite (Class_ : CObjClass) (C : Composite) (Ptr : Z)
    (Obj : PyObject) : M mem unit :=
  Co ← lift (cast_ref Class_ Obj);
  modify (memcpy Ptr (CObj_getData Co) (CObj_getSize Co)).

Definition case_enum (Ptr : Z) (Obj : PyObject) : M mem unit :=
  case_basic EnumType_IntType Int32 Ptr Obj.

Definition case_array (Elt : Type_) (N : Z) (Ptr : Z) (Obj : PyObject)
    : M mem unit :=
  ArrayObj ← lift (cast_ref CArrayObjClass Obj);
  modify (memcpy Ptr (CObj_getData ArrayObj) (getSize (ArrayType Elt N))).

Definition case_func (Ret : option Type_) (Params : list QualType)
    (Ptr : Z) (Obj : PyObject) : M mem unit :=
  throw (TypeError "unable to set a value to a function!").

Definition switch : Switch (Z -> PyObject -> M mem unit) := {|
  sw_basic := case_basic;
  sw_enum := case_enum;
  sw_pointer := case_pointer;
  sw_struct := case_composite CStructObjClass;
  sw_union := case_composite CUnionObjClass;
  sw_array := case_array;
  sw_func := case_func
|}.
End Cases.
End ValueSetter.

(** ** [ValueGetter] *)
Module ValueGetter.
Section Cases.
Context `{Platform}.

Definition case_basic (T : CType) (Kind : BasicKind) (Ptr : Z)
    : M mem PyObject :=
  v ← gets (fun m => load T m Ptr);
  mret (py_cast T v).

Definition case_enum (Ptr : Z) : M mem PyObject :=
  v ← gets (fun m => load EnumType_IntType m Ptr);
  mret (py_cast EnumType_IntType v).

Definition case_pointer (Pointee : QualType) (Ptr : Z) : M mem PyObject :=
  mret (PyCObj (CPointerObj (PointerType Pointee) (view Ptr))).

Definition case_composite_struct (C : Composite) (Ptr : Z)
    : M mem PyObject :=
  mret (PyCObj (CStructObj (StructType C) (view_void Ptr))).

Definition case_composite_union (C : Composite) (Ptr : Z)
    : M mem PyObject :=
  mret (PyCObj (CUnionObj (UnionType C) (view_void Ptr))).

Definition case_array (Elt : Type_) (N : Z) (Ptr : Z) : M mem PyObject :=
  mret (PyCObj (CArrayObj (ArrayType Elt N) (view_void Ptr))).

Definition case_func (Ret : option Type_) (Params : list QualType)
    (Ptr : Z) : M mem PyObject :=
  throw (TypeError "unable to get a value as a function!").

Definition switch : Switch (Z -> M mem PyObject) := {|
  sw_basic := case_basic;
  sw_enum := case_enum;
  sw_pointer := case_pointer;
  sw_struct := case_composite_struct;
  sw_union := case_composite_union;
  sw_array := case_array;
  sw_func := case_func
|}.
End Cases.
End ValueGetter.

(** ** [PtrToObjView] *)
Module PtrToObjView.
Definition case_basic (T : CType) (Kind : BasicKind) (Ptr : Z) : CObj :=
  CBasicObj T (BasicType Kind) (view Ptr).

Definition case_enum (Ptr : Z) : CObj :=
  CBasicObj EnumType_IntType EnumType_getBasicType (view Ptr).

Definition case_pointer (Pointee : QualType) (Ptr : Z) : CObj :=
  CPointerObj (PointerType Pointee) (view Ptr).

Definition case_composite_struct (C : Composite) (Ptr : Z) : CObj :=
  CStructObj (StructType C) (view_void Ptr).

Definition case_composite_union (C : Composite) (Ptr : Z) : CObj :=
  CUnionObj (UnionType C) (view_void Ptr).

Definition case_array (Elt : Type_) (N : Z) (Ptr : Z) : CObj :=
  CArrayObj (ArrayType Elt N) (view_void Ptr).

Definition case_func (Ret : option Type_) (Params : list QualType)
    (Ptr : Z) : CObj :=
  CFunction (getFunction Ret Params Ptr).

Definition switch : Switch (Z -> CObj) := {|
  sw_basic := case_basic;
  sw_enum := case_enum;
  sw_pointer := case_pointer;
  sw_struct := case_composite_struct;
  sw_union := case_composite_union;
  sw_array := case_array;
  sw_func := case_func
|}.
End PtrToObjView.

(** ** Reading and writing through handles

    [get] and [set] of a typed location, as [CArrayObj::get], [::set],
    [CCompositeObj::getValue] and [::setValue] reach them: the element of
    index [Idx] of an array is at [getData() + Idx * size of the element],
    a field at [getData() + offset]. *)
Section Accessors.
Context `{Platform}.

Definition get (Ty : Type_) (Ptr : Z) : M mem PyObject :=
  switch_ ValueGetter.switch Ty Ptr.

Definition set (Ty : Type_) (Ptr : Z) (Obj : PyObject) : M mem unit :=
  switch_ ValueSetter.switch Ty Ptr Obj.

(** Modelled from the spec: [CArrayObj::GEP] of [cobj.h]. *)
Definition GEP (Elt : Type_) (D : DataVoid) (Idx : Z) : Z :=
  getDataVoid D + Idx * getSize Elt.

Definition CArrayObj_get (Elt : Type_) (D : DataVoid) (Idx : Z)
    : M mem PyObject :=
  get Elt (GEP Elt D Idx).

Definition CArrayObj_set (Elt : Type_) (D : DataVoid) (Idx : Z)
    (Obj : PyObject) : M mem unit :=
  set Elt (GEP Elt D Idx) Obj.

(** Modelled from the spec: [CCompositeObj::getFieldData] of [cobj.h]. *)
Definition getFieldData (D : DataVoid) (Field : string * Type_ * Z) : Z :=
  getDataVoid D + Field.2.

Definition CCompositeObj_setValue (D : DataVoid)
    (Field : string * Type_ * Z) (Obj : PyObject) : M mem unit :=
  set Field.1.2 (getFieldData D Field) Obj.

Definition CCompositeObj_getValue (D : DataVoid)
    (Field : string * Type_ * Z) : M mem PyObject :=
  get Field.1.2 (getFieldData D Field).

(** [CPointerObj::getObj]. *)
Definition CPointerObj_getObj (Pointee : QualType) (D : Data) (m : mem)
    : CObj :=
  switch_ PtrToObjView.switch (getType Pointee) (getPtr D m).
End Accessors.

(** ** The host runtime and the native call

    What the source consumes from CPython and from the native call
    subsystem, as parameters: [PyUnicode_AsUTF8String] returns a new
    [bytes] object (the address of its buffer and its content) or fails;
    [allocate] is the address of the block a new owned handle of a type
    allocates; [NativeFunc_call] is the return handle as the native
    function leaves it, given the return handle it was passed and the
    handles whose storage it was passed as arguments. *)
Class HostRuntime := {
  PyUnicode_AsUTF8String : list Z -> option (Z * list Z);
  allocate : Type_ -> Z;
  NativeFunc_call : NativeFunc -> CObj -> list CObj -> CObj
}.

(** [PYBIND11_BYTES_AS_STRING], that is [PyBytes_AsString]: the buffer of
    a [bytes] object, null for any other object. *)
Definition PyBytes_AsString (Obj : PyObject) : option Z :=
  match Obj with
  | PyBytes ob_sval _ => Some ob_sval
  | _ => None
  end.

(** [Obj.cast<py::buffer>()] followed by [request(writable)].  The cast
    to a [py::buffer] is a converting constructor, which tests nothing;
    the request fails in [PyObject_GetBuffer], with the exception of the
    host runtime, on an object that does not export a buffer and when a
    writable view of a read-only exporter is asked for. *)
Definition exported_buffer (Obj : PyObject) : option (buffer_info * bool) :=
  match Obj with
  | PyBytes ob_sval s =>
      Some (mk_buffer_info ob_sval 1 "B" 1 (Z.of_nat (length s)), true)
  | PyBuffer Info ReadOnly => Some (Info, ReadOnly)
  | _ => None
  end.

Definition request (Obj : PyObject) (writable : bool) : result buffer_info :=
  match exported_buffer Obj with
  | None => Throw error_already_set
  | Some (Info, ReadOnly) =>
      if writable && ReadOnly then Throw error_already_set else Ok Info
  end.

(** [py::format_descriptor<T>::format()]. *)
Definition format_descriptor `{Platform} (T : CType) : string :=
  match T with
  | c_char => if char_is_signed then "b" else "B"
  | c_uint8_t => "B" | c_uint16_t => "H" | c_uint32_t => "I"
  | c_uint64_t => "Q"
  | c_int8_t => "b" | c_int16_t => "h" | c_int32_t => "i"
  | c_int64_t => "q"
  | c_float => "f" | c_double => "d"
  | c_uintptr_t =>
      if sizeof_uintptr_t =? 4 then "I"
      else if sizeof_uintptr_t =? 8 then "Q" else "H"
  end.

Definition getFormatDescriptor `{Platform} (Ty : Type_) : string :=
  match Ty with
  | BasicType Kind => format_descriptor (CTypeOf Kind)
  | _ => pretty (getSize Ty) +:+ "B"
  end.

(** ** [ConvertArgsSwitch] *)
Module ConvertArgsSwitch.
Section Cases.
Context `{Platform} `{HostRuntime}.

(** The state of a conversion: [ObjsHolder] and [PyObjsHolder]. *)
Definition Holders : Type := list CObj * list PyObject.

Definition H_emplace_back (Co : CObj) : M Holders unit :=
  modify (fun s => (s.1 ++ [Co], s.2)).
Definition PyH_emplace_back (Obj : PyObject) : M Holders unit :=
  modify (fun s => (s.1, s.2 ++ [Obj])).

(** The comparison of the two descriptors is commented out in the
    source. *)
Definition checkType (Co : option CObj) (Ty : Type_) : option CObj := Co.

Definition case_basic (T : CType) (Kind : BasicKind) (Obj : PyObject)
    : M Holders (option CObj) :=
  match dyn_cast_obj (CBasicObjClass T) Obj with
  | Some Ret => mret (Some Ret)
  | None =>
      v ← lift (cast_to T Obj);
      let Ret := CBasicObj T (BasicType Kind) (emplace_owned v) in
      H_emplace_back Ret;;
      mret (Some Ret)
  end.

Definition case_enum (Obj : PyObject) : M Holders (option CObj) :=
  case_basic EnumType_IntType Int32 Obj.

(** Lines 207 to 222: the conversion of a string. *)
Definition string_shortcut (Ty : Type_) (Obj : PyObject)
    : M Holders (option CObj) :=
  Tmp ← match Obj with
        | PyUnicode s =>
            match PyUnicode_AsUTF8String s with
            | None =>
                throw (TypeError
                  "Unable to extract string contents! (encoding issue)")
            | Some (ob_sval, enc) =>
                let Buf := PyBytes ob_sval enc in
                PyH_emplace_back Buf;;
                mret Buf
            end
        | _ => mret Obj
        end;
  match PyBytes_AsString Tmp with
  | None =>
      throw (TypeError "Unable to extract string contents! (invalid type)")
  | Some Buffer =>
      let Ret := CPointerObj Ty (emplace_owned Buffer) in
      H_emplace_back Ret;;
      mret (Some Ret)
  end.

(** Lines 227 to 239: the conversion of a buffer.  Modelled from the spec:
    a [ThrowError<TypeError>()] statement of [errors.h] throws a
    [TypeError] whose message is what was streamed into it. *)
Definition buffer_path (Ty : Type_) (PteTy : QualType) (isWritable : bool)
    (Obj : PyObject) : M Holders (option CObj) :=
  Info ← lift (request Obj isWritable);
  (if bi_ndim Info =? 1 then mret tt
   else throw (TypeError ("buffer should have only one dimension, got "
                          +:+ pretty (bi_ndim Info) +:+ "!")));;
  let ExpectedFormat := getFormatDescriptor (getType PteTy) in
  (if String.eqb (bi_format Info) ExpectedFormat then mret tt
   else throw (TypeError ("buffer doesn't have the good format, got '"
                          +:+ bi_format Info +:+ "', expected '"
                          +:+ ExpectedFormat +:+ "'")));;
  let Ret := CPointerObj Ty (emplace_owned (bi_ptr Info)) in
  H_emplace_back Ret;;
  mret (Some Ret).

Definition case_pointer (Pointee : QualType) (Obj : PyObject)
    : M Holders (option CObj) :=
  let Ty := PointerType Pointee in
  match dyn_cast_obj CPointerObjClass Obj with
  | Some PtrObj => mret (checkType (Some PtrObj) Ty)
  | None =>
      let PteTy := Pointee in
      let isWritable := negb (hasConst PteTy) in
      if negb isWritable then
        match getType PteTy with
        | BasicType Char => string_shortcut Ty Obj
        | _ => buffer_path Ty PteTy isWritable Obj
        end
      else buffer_path Ty PteTy isWritable Obj
  end.

Definition case_composite_struct (C : Composite) (Obj : PyObject)
    : M Holders (option CObj) :=
  Co ← lift (cast_ptr CStructObjClass Obj);
  mret (checkType Co (StructType C)).

Definition case_composite_union (C : Composite) (Obj : PyObject)
    : M Holders (option CObj) :=
  Co ← lift (cast_ptr CUnionObjClass Obj);
  mret (checkType Co (UnionType C)).

Definition case_array (Elt : Type_) (N : Z) (Obj : PyObject)
    : M Holders (option CObj) :=
  Co ← lift (cast_ptr CArrayObjClass Obj);
  mret (checkType Co (ArrayType Elt N)).

Definition case_func (Ret : option Type_) (Params : list QualType)
    (Obj : PyObject) : M Holders (option CObj) :=
  Co ← lift (cast_ptr CFunctionClass Obj);
  mret (checkType Co (FunctionType Ret Params)).

Definition switch : Switch (PyObject -> M Holders (option CObj)) := {|
  sw_basic := case_basic;
  sw_enum := case_enum;
  sw_pointer := case_pointer;
  sw_struct := case_composite_struct;
  sw_union := case_composite_union;
  sw_array := case_array;
  sw_func := case_func
|}.
End Cases.
End ConvertArgsSwitch.

(** [ConvertArgs::switch_(ATy, Holders, PyHolders, A)]. *)
Definition ConvertArgs `{Platform} `{HostRuntime} (ATy : QualType)
    (A : PyObject) : M ConvertArgsSwitch.Holders (option CObj) :=
  switch_ ConvertArgsSwitch.switch (getType ATy) A.

(** ** [CreateObjSwitch] *)
Module CreateObjSwitch.
Section Cases.
Context `{HostRuntime}.

Definition case_basic (T : CType) (Kind : BasicKind) : CObj :=
  CBasicObj T (BasicType Kind) (emplace_owned 0).

Definition case_enum : CObj :=
  CBasicObj EnumType_IntType EnumType_getBasicType (emplace_owned 0).

Definition case_pointer (Pointee : QualType) : CObj :=
  CPointerObj (PointerType Pointee) (emplace_owned 0).

Definition case_composite_struct (C : Composite) : CObj :=
  CStructObj (StructType C) (owned_void (allocate (StructType C))).

Definition case_composite_union (C : Composite) : CObj :=
  CUnionObj (UnionType C) (owned_void (allocate (UnionType C))).

Definition case_array (Elt : Type_) (N : Z) : CObj :=
  CArrayObj (ArrayType Elt N) (owned_void (allocate (ArrayType Elt N))).

Definition case_func (Ret : option Type_) (Params : list QualType) : CObj :=
  CFunction (getFunction Ret Params 0).

Definition switch : Switch CObj := {|
  sw_basic := case_basic;
  sw_enum := case_enum;
  sw_pointer := case_pointer;
  sw_struct := case_composite_struct;
  sw_union := case_composite_union;
  sw_array := case_array;
  sw_func := case_func
|}.
End Cases.
End CreateObjSwitch.

Definition CreateObj `{HostRuntime} (Ty : Type_) : CObj :=
  switch_ CreateObjSwitch.switch Ty.

(** ** Memory views of a pointer handle *)
Section MemoryView.
Context `{Platform}.

(** [strlen]: the number of bytes before the first null byte.  A finite
    memory has a null byte within [size m + 1] addresses of any
    address, which bounds the search. *)
Fixpoint strlen_from (fuel : nat) (m : mem) (p : Z) : Z :=
  match fuel with
  | O => 0
  | S fuel' =>
      if load_byte m p =? 0 then 0 else 1 + strlen_from fuel' m (p + 1)
  end.

Definition strlen (m : mem) (p : Z) : Z := strlen_from (S (size m)) m p.

(** [CPointerObj::getMemoryView(Len)]: the one-dimensional
    [py::buffer_info{ptr, itemsize, format, size}].  The source multiplies
    two [size_t] and casts the product to [ssize_t]; the product here is
    that of the integers, which is the source's as long as it is below
    [2 ^ (8 * sizeof(ssize_t) - 1)]. *)
Definition CPointerObj_getMemoryView (Pointee : QualType) (D : Data)
    (Len : Z) (m : mem) : buffer_info :=
  let PointeeTy := getType Pointee in
  let PointeeSize := getSize PointeeTy in
  mk_buffer_info (getPtr D m) PointeeSize (getFormatDescriptor PointeeTy)
                 1 (PointeeSize * Len).

(** [CPointerObj::getMemoryViewCStr]. *)
Definition CPointerObj_getMemoryViewCStr (Pointee : QualType) (D : Data)
    : M mem buffer_info :=
  let PteType := getType Pointee in
  match PteType with
  | BasicType Char =>
      Len ← gets (fun m => strlen m (getPtr D m));
      gets (CPointerObj_getMemoryView Pointee D Len)
  | _ => throw (TypeError "pointer must be a pointer to char*!")
  end.
End MemoryView.

(** ** [CFunction::call] *)

(** How a call ends: it returns a host value, throws, stops the process on
    a failed [assert], or runs into behaviour the language leaves
    undefined (an index past the end of a vector, a null handle that is
    dereferenced, a native function that reads more argument addresses
    than it was given). *)
Inductive outcome :=
| Returns (V : PyObject)
| Raises (e : exn)
| AssertionFailed
| Undefined.

Section Call.
Context `{Platform} `{HostRuntime}.

(** The loop over [Args]: [I] is the index of the next argument, [Ptrs]
    the handles converted so far, whose [dataPtr()] is passed to the
    native function.  [Inl] stops the call. *)
Fixpoint convert_args (Params : list QualType) (Args : list PyObject)
    (I : nat) (Ptrs : list CObj) (s : ConvertArgsSwitch.Holders)
    : outcome + list CObj * ConvertArgsSwitch.Holders :=
  match Args with
  | [] => inr (Ptrs, s)
  | A :: Args' =>
      match Params !! I with
      | None => inl Undefined
      | Some ATy =>
          match ConvertArgs ATy A s with
          | (Throw e, _) => inl (Raises e)
          | (Ok None, _) => inl Undefined
          | (Ok (Some AObj), s') =>
              convert_args Params Args' (S I) (Ptrs ++ [AObj]) s'
          end
      end
  end.

(** [NDEBUG] tells whether [assert] is compiled out.  The native function
    reads one address per declared parameter from [&Ptrs[0]]: handed fewer
    addresses than it has parameters, the call is undefined. *)
Definition CFunction_call (NDEBUG : bool) (NF : NativeFunc)
    (Args : list PyObject) : outcome :=
  let Len := length Args in
  if negb NDEBUG && negb (Len =? length (getParams NF))%nat
  then AssertionFailed
  else
    match convert_args (getParams NF) Args 0 [] ([], []) with
    | inl stop => stop
    | inr (Ptrs, _) =>
        let RetTy := getReturnType NF in
        let RetObj := CreateObj <$> RetTy in
        if (length Ptrs <? length (getParams NF))%nat then Undefined
        else
          match RetObj with
          | Some Ret => Returns (PyCObj (NativeFunc_call NF Ret Ptrs))
          | None => Returns PyNone
          end
    end.
End Call.

(** ** Casts *)
Section Cast.
Context `{Platform}.

(** [CPointerObj::cast]; [D] is the data of the pointer handle. *)
Definition CPointerObj_cast (D : Data) (To : Type_) (m : mem)
    : option CObj :=
  match To with
  | BasicType _ =>
      if getSize To =? sizeof c_uintptr_t
      then Some (CBasicObj c_uintptr_t To (emplace_owned (getPtr D m)))
      else None
  | PointerType _ => Some (CPointerObj To (emplace_owned (getPtr D m)))
  | _ => None
  end.

(** [CArrayObj::cast]; [Ty] and [D] are the type and the data of the
    array handle. *)
Definition CArrayObj_cast (Ty : Type_) (D : DataVoid) (To : Type_)
    : option CObj :=
  match To with
  | ArrayType _ _ =>
      let Ptr := getDataVoid D in
      if (getSize To =? getSize Ty) && (Ptr mod getAlign To =? 0)
      then Some (CArrayObj To (view_void (getDataVoid D)))
      else None
  | PointerType _ => Some (CPointerObj To (emplace_owned (getDataVoid D)))
  | _ => None
  end.

(** [CCompositeObj::cast]; [Ty] and [D] are the type and the data of the
    struct or union handle. *)
Definition CCompositeObj_cast (Ty : Type_) (D : DataVoid) (To : Type_)
    : option CObj :=
  match To with
  | PointerType _ => Some (CPointerObj To (emplace_owned (getDataVoid D)))
  | StructType _ =>
      let Ptr := getDataVoid D in
      if (getSize To =? getSize Ty) && (Ptr mod getAlign To =? 0)
      then Some (CStructObj To (view_void Ptr))
      else None
  | UnionType _ =>
      let Ptr := getDataVoid D in
      if (getSize To =? getSize Ty) && (Ptr mod getAlign To =? 0)
      then Some (CUnionObj To (view_void Ptr))
      else None
  | _ => None
  end.
End Cast.

(** ** A concrete platform and host, for the examples

    An LP64 platform with a signed [char]; a host whose encoder accepts
    the code points below 128 and puts the new [bytes] object at address
    [4096], and whose native functions add their integer arguments. *)
Definition lp64 : Platform :=
  {| sizeof_uintptr_t := 8; char_is_signed := true |}.

Definition owned_value (Co : CObj) : Z :=
  match Co with
  | CBasicObj _ _ (emplace_owned v) => v
  | _ => 0
  end.

Definition example_host : HostRuntime := {|
  PyUnicode_AsUTF8String s :=
    if forallb (fun c => (0 <=? c) && (c <? 128)) s
    then Some (4096, s) else None;
  allocate Ty := 8192;
  NativeFunc_call NF RetObj Ptrs :=
    match RetObj with
    | CBasicObj T Ty _ =>
        CBasicObj T Ty
          (emplace_owned
             (foldr (fun Co acc => owned_value Co + acc) 0 Ptrs mod 2 ^ 32))
    | _ => RetObj
    end
|}.

(** ** Vocabulary of the statements *)

(** The handle class a parameter of each kind is converted from: the class
    each case of [ConvertArgsSwitch] casts its argument to. *)
Definition handle_class (Ty : Type_) : CObjClass :=
  match Ty with
  | BasicType Kind => CBasicObjClass (CTypeOf Kind)
  | EnumType => CBasicObjClass EnumType_IntType
  | PointerType _ => CPointerObjClass
  | ArrayType _ _ => CArrayObjClass
  | StructType _ => CStructObjClass
  | UnionType _ => CUnionObjClass
  | FunctionType _ _ => CFunctionClass
  end.

Definition is_block_or_function (Ty : Type_) : bool :=
  match Ty with
  | ArrayType _ _ | StructType _ | UnionType _ | FunctionType _ _ => true
  | _ => false
  end.

Definition is_integer_kind (Kind : BasicKind) : bool :=
  match Kind with
  | Float32 | Float64 => false
  | _ => true
  end.

Definition is_basic (Ty : Type_) : bool :=
  match Ty with BasicType _ => true | _ => false end.
Definition is_pointer (Ty : Type_) : bool :=
  match Ty with PointerType _ => true | _ => false end.

Definition is_const_char (Q : QualType) : bool :=
  hasConst Q && match getType Q with BasicType Char => true | _ => false end.

(** The host values of each Basic kind: the integers of the range of an
    integer type, the strings of one code point below 256 for [char], the
    doubles for [double] and, for [float], the doubles that are the image
    of a [float] (each given by its bit pattern, so that the zeros, the
    subnormals, the largest and smallest values, the infinities and the
    NaNs are all among them). *)
Inductive value_of_kind `{Platform} : BasicKind -> PyObject -> Prop :=
| value_integer (Kind : BasicKind) (z : Z) :
    is_integer_kind Kind = true -> Kind <> Char ->
    min_value (CTypeOf Kind) <= z <= max_value (CTypeOf Kind) ->
    value_of_kind Kind (PyLong z)
| value_char (c : Z) :
    0 <= c < 256 -> value_of_kind Char (PyUnicode [c])
| value_double (b : Z) :
    0 <= b < 2 ^ 64 -> value_of_kind Float64 (PyFloat b)
| value_float (f : Z) :
    0 <= f < 2 ^ 32 -> value_of_kind Float32 (PyFloat (float_to_double f)).

(** The bits of the finite value [q * 2 ^ t] of sign [s] in the format
    [(eb, mb)], and the pairs [(q, t)] that are the significand and the
    exponent of a value of the format. *)
Definition float_encode (eb mb s q t : Z) : Z :=
  s * sign_bit eb mb + ((t - tmin eb mb) * 2 ^ mb + q).

Definition canonical (eb mb q t : Z) : Prop :=
  tmin eb mb <= t
  /\ 0 <= q < 2 ^ (mb + 1)
  /\ (q < 2 ^ mb -> t = tmin eb mb)
  /\ (t - tmin eb mb) * 2 ^ mb + q < infinity eb mb.

(** [sub] occurs in [s]. *)
Definition contains (s sub : string) : Prop :=
  exists pre post : string, s = pre +:+ sub +:+ post.

(** The type is a struct or a union. *)
Definition is_composite (Ty : Type_) : bool :=
  match Ty with StructType _ | UnionType _ => true | _ => false end.

(** The two memory regions of [N] bytes at [P] and [Q] do not overlap. *)
Definition disjoint (P Q N : Z) : Prop := P + N <= Q \/ Q + N <= P.

(** The handle is a scalar or pointer handle with storage of its own. *)
Definition is_owned_scalar (Co : CObj) : bool :=
  match Co with
  | CBasicObj _ _ (emplace_owned _) | CPointerObj _ (emplace_owned _) => true
  | _ => false
  end.

(** The descriptors and functions of the examples. *)
Definition int_ : QualType := mkQualType (BasicType Int32) false.
Definition const_char : QualType := mkQualType (BasicType Char) true.
Definition char_ : QualType := mkQualType (BasicType Char) false.
Definition const_char_ptr : QualType := mkQualType (PointerType const_char) false.
Definition char_ptr : QualType := mkQualType (PointerType char_) false.
Definition add : NativeFunc :=
  getFunction (Some (BasicType Int32)) [int_; int_] 4660.
Definition struct_A : Type_ := StructType (mkComposite "A" [] 4 4).
Definition struct_B : Type_ := StructType (mkComposite "B" [] 8 8).
(** The bytes of ["hi"], a null byte and a [7] at address [10], and a
    pointer to them at address [100]. *)
Definition example_mem : mem :=
  store (H := lp64) c_uintptr_t 100 10 (store_bytes ∅ 10 [104; 105; 0; 7]).

(** * Properties *)

Ltac monad_simpl :=
  unfold mbind, M_bind, bind, mret, M_ret, ret, lift, throw, modify, gets,
    ConvertArgsSwitch.H_emplace_back, ConvertArgsSwitch.PyH_emplace_back
    in *;
  simpl in *.

(** ** Function-typed locations *)

(** C3. For every descriptor of kind Function, [set] and [get] throw
    [TypeError], whatever the address and the host value, and leave the
    memory as it was. *)
Theorem function_get_set_TypeError `{Platform} (Ret : option Type_)
    (Params : list QualType) (Ptr : Z) (Obj : PyObject) (m : mem) :
  set (FunctionType Ret Params) Ptr Obj m
    = (Throw (TypeError "unable to set a value to a function!"), m)
  /\ get (FunctionType Ret Params) Ptr m
    = (Throw (TypeError "unable to get a value as a function!"), m).
Proof. split; reflexivity. Qed.

(** ** The call protocol *)

(** The scenario of the spec: [int add(int, int)] called with [(2, 3)]
    returns [5], with and without assertions. *)
Example call_add_2_3 (NDEBUG : bool) :
  CFunction_call (H := lp64) (H0 := example_host) NDEBUG add
    [PyLong 2; PyLong 3]
  = Returns (PyCObj (CBasicObj c_int32_t (BasicType Int32) (emplace_owned 5))).
Proof. destruct NDEBUG; vm_compute; reflexivity. Qed.

(** C1, at the input where the code departs from it.  [add] called with
    the single argument [2]: with assertions compiled in the process stops
    on the failed [assert]; with [NDEBUG] the argument is converted (an
    owned scalar is created) and the native function is handed one address
    where it reads two.  Neither is a [TypeError]. *)
Theorem call_arity_one_of_two :
  CFunction_call (H := lp64) (H0 := example_host) false add [PyLong 2]
    = AssertionFailed
  /\ CFunction_call (H := lp64) (H0 := example_host) true add [PyLong 2]
    = Undefined
  /\ convert_args (H := lp64) (H0 := example_host) (getParams add)
       [PyLong 2] 0 [] ([], [])
     = inr ([CBasicObj c_int32_t (BasicType Int32) (emplace_owned 2)],
            ([CBasicObj c_int32_t (BasicType Int32) (emplace_owned 2)], [])).
Proof. repeat split; vm_compute; reflexivity. Qed.

(** With assertions compiled in, every call whose number of arguments is
    not the number of parameters stops on the [assert]. *)
Lemma call_arity_assert `{Platform} `{HostRuntime} (NF : NativeFunc)
    (Args : list PyObject) :
  length Args <> length (getParams NF) ->
  CFunction_call false NF Args = AssertionFailed.
Proof.
  intros Hne. unfold CFunction_call. simpl.
  destruct (Nat.eqb_spec (length Args) (length (getParams NF)));
    [contradiction | reflexivity].
Qed.

(** The loop ends normally only when no argument is beyond the
    parameters, and then it has converted every argument. *)
Lemma convert_args_length `{Platform} `{HostRuntime} (Params : list QualType)
    (Args : list PyObject) (I : nat) (Ptrs Ptrs' : list CObj)
    (s s' : ConvertArgsSwitch.Holders) :
  convert_args Params Args I Ptrs s = inr (Ptrs', s') ->
  (Args <> [] -> (I + length Args <= length Params)%nat)
  /\ length Ptrs' = (length Ptrs + length Args)%nat.
Proof.
  revert I Ptrs s. induction Args as [|A Args IH]; intros I Ptrs s; simpl.
  - intros [= <- <-]. split; [congruence | lia].
  - destruct (Params !! I) as [ATy|] eqn:HI; [|discriminate].
    apply lookup_lt_Some in HI.
    destruct (ConvertArgs ATy A s) as [[[AObj|]|e] s1]; try discriminate.
    intros Hrec. apply IH in Hrec as [Hle Hlen].
    rewrite length_app in Hlen. simpl in Hlen. split; [|lia].
    intros _. destruct Args as [|A' Args']; simpl in *; [lia|].
    specialize (Hle ltac:(congruence)). lia.
Qed.

(** ** Argument conversion: handles *)

(** C2 fails: a struct handle of type [A] supplied for a parameter of the
    different struct type [B] is accepted and returned as it is. *)
Lemma convert_struct_of_other_type :
  struct_A <> struct_B
  /\ ConvertArgs (H := lp64) (H0 := example_host) (mkQualType struct_B false)
       (PyCObj (CStructObj struct_A (view_void 16))) ([], [])
     = (Ok (Some (CStructObj struct_A (view_void 16))), ([], [])).
Proof. split; [discriminate | reflexivity]. Qed.

(** C2, amended.  The conversion never compares descriptors: a handle of
    the class of the parameter's kind is returned as it is, whatever its
    type, and the holders are unchanged.  For an Array, Struct, Union or
    Function parameter, a host value other than [None] that is not a handle
    of that class fails with the [cast_error] of the binding library. *)
Theorem convert_handle_by_class `{Platform} `{HostRuntime} (ATy : QualType)
    (Obj : PyObject) (s : ConvertArgsSwitch.Holders) :
  (forall Co : CObj,
     Obj = PyCObj Co ->
     isinstance Co (handle_class (getType ATy)) = true ->
     ConvertArgs ATy Obj s = (Ok (Some Co), s))
  /\ (is_block_or_function (getType ATy) = true ->
      Obj <> PyNone ->
      dyn_cast_obj (handle_class (getType ATy)) Obj = None ->
      ConvertArgs ATy Obj s = (Throw cast_error, s)).
Proof.
  destruct ATy as [Ty c]. unfold ConvertArgs. simpl. split.
  - intros Co -> Hinst.
    destruct Ty; simpl in *;
      unfold ConvertArgsSwitch.case_basic, ConvertArgsSwitch.case_enum,
        ConvertArgsSwitch.case_basic, ConvertArgsSwitch.case_pointer,
        ConvertArgsSwitch.case_array, ConvertArgsSwitch.case_composite_struct,
        ConvertArgsSwitch.case_composite_union, ConvertArgsSwitch.case_func,
        cast_ptr;
      simpl; rewrite Hinst; reflexivity.
  - intros Hkind Hnone Hcast.
    destruct Ty; simpl in *; try discriminate;
      unfold ConvertArgsSwitch.case_array,
        ConvertArgsSwitch.case_composite_struct,
        ConvertArgsSwitch.case_composite_union, ConvertArgsSwitch.case_func,
        cast_ptr;
      monad_simpl; rewrite Hcast; destruct Obj; try reflexivity;
      contradiction.
Qed.

Lemma convert_handle_by_class_witness :
  ConvertArgs (H := lp64) (H0 := example_host) (mkQualType struct_B false)
    (PyCObj (CUnionObj struct_B (view_void 16))) ([], [])
  = (Throw cast_error, ([], []))
  /\ ConvertArgs (H := lp64) (H0 := example_host) const_char_ptr
       (PyCObj (CPointerObj (PointerType int_) (view 16))) ([], [])
     = (Ok (Some (CPointerObj (PointerType int_) (view 16))), ([], [])).
Proof.
  split.
  - apply (proj2 (convert_handle_by_class (mkQualType struct_B false)
                    (PyCObj (CUnionObj struct_B (view_void 16))) ([], [])));
      [reflexivity | discriminate | reflexivity].
  - apply (proj1 (convert_handle_by_class const_char_ptr
                    (PyCObj (CPointerObj (PointerType int_) (view 16)))
                    ([], [])));
      reflexivity.
Defined.

(** ** Casts *)

(** C6 fails on an LP64 platform: [double] is neither an integer type nor
    a pointer type, and the cast of a pointer handle to it returns a
    handle. *)
Lemma pointer_cast_to_double :
  is_integer_kind Float64 = false
  /\ is_pointer (BasicType Float64) = false
  /\ CPointerObj_cast (H := lp64) (emplace_owned 77) (BasicType Float64) ∅
     = Some (CBasicObj c_uintptr_t (BasicType Float64) (emplace_owned 77)).
Proof. repeat split. Qed.

(** C6, amended.  The cast of a pointer handle to an integer type succeeds
    exactly when the size of the type is the width of an address, and then
    gives an owned scalar holding the address the pointer holds.  The cast
    to a type that is neither Basic nor a pointer type, or to a Basic type
    of another size, returns no handle. *)
Theorem CPointerObj_cast_rule `{Platform} (D : Data) (To : Type_) (m : mem) :
  (forall Kind : BasicKind,
     To = BasicType Kind ->
     is_integer_kind Kind = true ->
     (getSize To = sizeof_uintptr_t ->
      CPointerObj_cast D To m
      = Some (CBasicObj c_uintptr_t To (emplace_owned (getPtr D m))))
     /\ (CPointerObj_cast D To m <> None -> getSize To = sizeof_uintptr_t))
  /\ (is_basic To = false -> is_pointer To = false ->
      CPointerObj_cast D To m = None)
  /\ (is_basic To = true -> getSize To <> sizeof_uintptr_t ->
      CPointerObj_cast D To m = None).
Proof.
  repeat split.
  - intros Hsize. subst To. unfold CPointerObj_cast.
    change (sizeof c_uintptr_t) with sizeof_uintptr_t.
    apply Z.eqb_eq in Hsize. rewrite Hsize. reflexivity.
  - subst To. unfold CPointerObj_cast.
    change (sizeof c_uintptr_t) with sizeof_uintptr_t.
    destruct (Z.eqb_spec (getSize (BasicType Kind)) sizeof_uintptr_t);
      [tauto | congruence].
  - destruct To; simpl; intros; congruence.
  - destruct To; simpl; try discriminate. intros _ Hne.
    change (sizeof c_uintptr_t) with sizeof_uintptr_t.
    destruct (Z.eqb_spec (sizeof (CTypeOf Kind)) sizeof_uintptr_t);
      [contradiction | reflexivity].
Qed.

Lemma CPointerObj_cast_rule_witness :
  CPointerObj_cast (H := lp64) (emplace_owned 77) (BasicType UInt64) ∅
  = Some (CBasicObj c_uintptr_t (BasicType UInt64) (emplace_owned 77))
  /\ CPointerObj_cast (H := lp64) (emplace_owned 77) struct_B ∅ = None
  /\ CPointerObj_cast (H := lp64) (emplace_owned 77) (BasicType Int32) ∅
     = None.
Proof.
  pose proof (CPointerObj_cast_rule (H := lp64) (emplace_owned 77)
                (BasicType UInt64) ∅) as [Hint _].
  pose proof (CPointerObj_cast_rule (H := lp64) (emplace_owned 77)
                struct_B ∅) as [_ [Hother _]].
  pose proof (CPointerObj_cast_rule (H := lp64) (emplace_owned 77)
                (BasicType Int32) ∅) as [_ [_ Hsize]].
  split; [|split].
  - apply (Hint UInt64); reflexivity.
  - apply Hother; reflexivity.
  - apply Hsize; [reflexivity | discriminate].
Defined.

(** C7.  The cast of an array handle to an array type, and of a struct or
    union handle to a struct or union type, succeeds if and only if the
    size of the target type is the size of the source type and the address
    of the data is a multiple of the alignment of the target type.  When
    it succeeds the result is a view, of the class of the target type, at
    the address of the source; otherwise there is no result. *)
Theorem block_cast_rule `{Platform} (Ty : Type_) (D : DataVoid) (To : Type_) :
  (getSize To = getSize Ty /\ getDataVoid D mod getAlign To = 0 ->
   (forall Elt N, To = ArrayType Elt N ->
      CArrayObj_cast Ty D To
      = Some (CArrayObj To (view_void (getDataVoid D))))
   /\ (forall C, To = StructType C ->
         CCompositeObj_cast Ty D To
         = Some (CStructObj To (view_void (getDataVoid D))))
   /\ (forall C, To = UnionType C ->
         CCompositeObj_cast Ty D To
         = Some (CUnionObj To (view_void (getDataVoid D)))))
  /\ (~ (getSize To = getSize Ty /\ getDataVoid D mod getAlign To = 0) ->
      (forall Elt N, To = ArrayType Elt N -> CArrayObj_cast Ty D To = None)
      /\ (forall C, To = StructType C \/ To = UnionType C ->
            CCompositeObj_cast Ty D To = None)).
Proof.
  split; intros Hfits; repeat split; intros;
    repeat match goal with H : _ \/ _ |- _ => destruct H end;
    subst To; unfold CArrayObj_cast, CCompositeObj_cast;
    match goal with
    | |- context [(?a =? ?b) && (?c =? ?d)] =>
        destruct (Z.eqb_spec a b); destruct (Z.eqb_spec c d); simpl
    end; solve [reflexivity | tauto].
Qed.

Lemma block_cast_rule_witness :
  CArrayObj_cast (H := lp64) (ArrayType (BasicType Int32) 4)
    (view_void 64) (ArrayType (BasicType Int64) 2)
  = Some (CArrayObj (ArrayType (BasicType Int64) 2) (view_void 64))
  /\ CArrayObj_cast (H := lp64) (ArrayType (BasicType Int32) 4)
       (view_void 68) (ArrayType (BasicType Int64) 2)
     = None
  /\ CCompositeObj_cast (H := lp64) struct_B (owned_void 64)
       (UnionType (mkComposite "U" [] 8 4))
     = Some (CUnionObj (UnionType (mkComposite "U" [] 8 4)) (view_void 64))
  /\ CCompositeObj_cast (H := lp64) struct_B (owned_void 64) struct_A = None.
Proof.
  destruct (block_cast_rule (H := lp64) (ArrayType (BasicType Int32) 4)
              (view_void 64) (ArrayType (BasicType Int64) 2)) as [Hyes1 _].
  destruct (Hyes1 (conj eq_refl eq_refl)) as [Harr1 _].
  destruct (block_cast_rule (H := lp64) (ArrayType (BasicType Int32) 4)
              (view_void 68) (ArrayType (BasicType Int64) 2)) as [_ Hno2].
  destruct Hno2 as [Harr2 _].
  { intros [_ Hal]. vm_compute in Hal. discriminate. }
  destruct (block_cast_rule (H := lp64) struct_B (owned_void 64)
              (UnionType (mkComposite "U" [] 8 4))) as [Hyes3 _].
  destruct (Hyes3 (conj eq_refl eq_refl)) as [_ [_ Hun3]].
  destruct (block_cast_rule (H := lp64) struct_B (owned_void 64) struct_A)
    as [_ Hno4].
  destruct Hno4 as [_ Hcomp4].
  { intros [Hsz _]. vm_compute in Hsz. discriminate. }
  split; [|split; [|split]].
  - exact (Harr1 _ _ eq_refl).
  - exact (Harr2 _ _ eq_refl).
  - exact (Hun3 _ eq_refl).
  - exact (Hcomp4 _ (or_introl eq_refl)).
Defined.

(** ** Argument conversion: pointers *)

Lemma append_assoc (a b c : string) : (a +:+ b) +:+ c = a +:+ b +:+ c.
Proof.
  induction a as [|x a IH]; [reflexivity|].
  change (String x ((a +:+ b) +:+ c) = String x (a +:+ b +:+ c)).
  now f_equal.
Qed.

(** A host value that is not a pointer handle, for a pointee that is not a
    [const char], is converted by lines 227 to 239. *)
Lemma case_pointer_buffer `{Platform} `{HostRuntime} (Pointee : QualType)
    (Obj : PyObject) :
  dyn_cast_obj CPointerObjClass Obj = None ->
  is_const_char Pointee = false ->
  ConvertArgsSwitch.case_pointer Pointee Obj
  = ConvertArgsSwitch.buffer_path (PointerType Pointee) Pointee
      (negb (hasConst Pointee)) Obj.
Proof.
  intros Hdyn Hcc. unfold ConvertArgsSwitch.case_pointer. rewrite Hdyn.
  destruct Pointee as [PteTy c]. unfold is_const_char in Hcc. simpl in *.
  destruct c; simpl in *; [|reflexivity].
  destruct PteTy as [[]| | | | | |]; simpl in *;
    first [discriminate | reflexivity].
Qed.

(** A host value that is not a pointer handle, for a [const char] pointee,
    is converted by lines 207 to 222. *)
Lemma case_pointer_string `{Platform} `{HostRuntime} (Pointee : QualType)
    (Obj : PyObject) :
  dyn_cast_obj CPointerObjClass Obj = None ->
  is_const_char Pointee = true ->
  ConvertArgsSwitch.case_pointer Pointee Obj
  = ConvertArgsSwitch.string_shortcut (PointerType Pointee) Obj.
Proof.
  intros Hdyn Hcc. unfold ConvertArgsSwitch.case_pointer. rewrite Hdyn.
  destruct Pointee as [PteTy c]. unfold is_const_char in Hcc. simpl in *.
  destruct c; simpl in *; [|discriminate].
  destruct PteTy as [[]| | | | | |]; simpl in *;
    first [discriminate | reflexivity].
Qed.

(** For a [const char] pointee, a host value that is neither a pointer
    handle, a text string nor a [bytes] object fails in the conversion of
    a string; it is not tried as a buffer. *)
Lemma case_pointer_const_char_other `{Platform} `{HostRuntime}
    (Pointee : QualType) (Obj : PyObject) (s : ConvertArgsSwitch.Holders) :
  is_const_char Pointee = true ->
  dyn_cast_obj CPointerObjClass Obj = None ->
  (forall cps, Obj <> PyUnicode cps) ->
  PyBytes_AsString Obj = None ->
  ConvertArgsSwitch.case_pointer Pointee Obj s
  = (Throw (TypeError "Unable to extract string contents! (invalid type)"),
     s).
Proof.
  intros Hcc Hdyn Htext Hbytes.
  rewrite (case_pointer_string Pointee Obj Hdyn Hcc).
  unfold ConvertArgsSwitch.string_shortcut. monad_simpl.
  destruct Obj as [| | |cps| | |]; simpl in *;
    first [discriminate | reflexivity | now destruct (Htext cps)].
Qed.

(** The conversion of a buffer leaves [PyObjsHolder] as it was. *)
Lemma buffer_path_PyH `{Platform} `{HostRuntime} (Ty : Type_)
    (PteTy : QualType) (w : bool) (Obj : PyObject)
    (s s' : ConvertArgsSwitch.Holders) (r : result (option CObj)) :
  ConvertArgsSwitch.buffer_path Ty PteTy w Obj s = (r, s') -> s'.2 = s.2.
Proof.
  unfold ConvertArgsSwitch.buffer_path. monad_simpl.
  destruct (request Obj w) as [Info|e]; [|intros [= _ <-]; reflexivity].
  destruct (bi_ndim Info =? 1); [|intros [= _ <-]; reflexivity].
  destruct (String.eqb _ _); intros [= _ <-]; reflexivity.
Qed.

(** C5.  When a pointer argument is converted as a buffer (the host value
    is not a pointer handle and the pointee is not a [const char]) and the
    host value exports the requested buffer: a buffer whose number of
    dimensions is not 1 fails with [TypeError]; a one-dimensional buffer
    whose format is not the format of the pointee type fails with a
    [TypeError] whose message contains the format of the buffer and the
    expected one.  The holders are unchanged. *)
Theorem buffer_path_TypeError `{Platform} `{HostRuntime} (Pointee : QualType)
    (c : bool) (Obj : PyObject) (Info : buffer_info)
    (s : ConvertArgsSwitch.Holders) :
  dyn_cast_obj CPointerObjClass Obj = None ->
  is_const_char Pointee = false ->
  request Obj (negb (hasConst Pointee)) = Ok Info ->
  (bi_ndim Info <> 1 ->
   exists msg : string,
     ConvertArgs (mkQualType (PointerType Pointee) c) Obj s
     = (Throw (TypeError msg), s))
  /\ (bi_ndim Info = 1 ->
      bi_format Info <> getFormatDescriptor (getType Pointee) ->
      exists msg : string,
        ConvertArgs (mkQualType (PointerType Pointee) c) Obj s
        = (Throw (TypeError msg), s)
        /\ contains msg (bi_format Info)
        /\ contains msg (getFormatDescriptor (getType Pointee))).
Proof.
  intros Hdyn Hcc Hreq. unfold ConvertArgs. simpl.
  rewrite (case_pointer_buffer Pointee Obj Hdyn Hcc).
  unfold ConvertArgsSwitch.buffer_path. monad_simpl. rewrite Hreq. split.
  - intros Hndim. apply Z.eqb_neq in Hndim. rewrite Hndim. eauto.
  - intros Hndim Hfmt. apply Z.eqb_eq in Hndim. rewrite Hndim.
    apply String.eqb_neq in Hfmt. rewrite Hfmt.
    eexists. split; [reflexivity|]. split.
    + exists "buffer doesn't have the good format, got '". eexists.
      reflexivity.
    + exists ("buffer doesn't have the good format, got '"
              +:+ bi_format Info +:+ "', expected '"), "'".
      now rewrite !append_assoc.
Qed.

Lemma buffer_path_TypeError_witness :
  (exists msg : string,
     ConvertArgs (H := lp64) (H0 := example_host) char_ptr
       (PyBuffer (mk_buffer_info 900 1 "b" 2 10) false) ([], [])
     = (Throw (TypeError msg), ([], [])))
  /\ (exists msg : string,
        ConvertArgs (H := lp64) (H0 := example_host) char_ptr
          (PyBuffer (mk_buffer_info 900 1 "B" 1 10) false) ([], [])
        = (Throw (TypeError msg), ([], []))
        /\ contains msg "B" /\ contains msg "b").
Proof.
  split.
  - apply (proj1 (buffer_path_TypeError (H := lp64) (H0 := example_host)
                    char_ false
                    (PyBuffer (mk_buffer_info 900 1 "b" 2 10) false)
                    (mk_buffer_info 900 1 "b" 2 10) ([], [])
                    eq_refl eq_refl eq_refl)).
    discriminate.
  - apply (proj2 (buffer_path_TypeError (H := lp64) (H0 := example_host)
                    char_ false
                    (PyBuffer (mk_buffer_info 900 1 "B" 1 10) false)
                    (mk_buffer_info 900 1 "B" 1 10) ([], [])
                    eq_refl eq_refl eq_refl));
      [reflexivity | discriminate].
Defined.

(** C10.  For a [const char] pointee: a [bytes] object is converted to an
    owned pointer handle holding the address of the object's own buffer,
    with nothing added to [PyObjsHolder], so nothing is encoded or copied;
    a text string is first encoded, the new [bytes] object is kept in
    [PyObjsHolder], and the pointer handle holds the address of the buffer
    of that object.  In both cases the handle is kept in [ObjsHolder]. *)
Theorem string_shortcut_bytes_and_text `{Platform} `{HostRuntime}
    (Pointee : QualType) (c : bool) (Hs : list CObj) (PyHs : list PyObject) :
  is_const_char Pointee = true ->
  (forall (ob_sval : Z) (bs : list Z),
     ConvertArgs (mkQualType (PointerType Pointee) c) (PyBytes ob_sval bs)
       (Hs, PyHs)
     = (Ok (Some (CPointerObj (PointerType Pointee) (emplace_owned ob_sval))),
        (Hs ++ [CPointerObj (PointerType Pointee) (emplace_owned ob_sval)],
         PyHs)))
  /\ (forall (cps : list Z) (ob_sval : Z) (enc : list Z),
        PyUnicode_AsUTF8String cps = Some (ob_sval, enc) ->
        ConvertArgs (mkQualType (PointerType Pointee) c) (PyUnicode cps)
          (Hs, PyHs)
        = (Ok (Some (CPointerObj (PointerType Pointee)
                       (emplace_owned ob_sval))),
           (Hs ++ [CPointerObj (PointerType Pointee) (emplace_owned ob_sval)],
            PyHs ++ [PyBytes ob_sval enc]))).
Proof.
  intros Hcc. unfold ConvertArgs. simpl. split.
  - intros ob_sval bs.
    rewrite (case_pointer_string Pointee (PyBytes ob_sval bs) eq_refl Hcc).
    reflexivity.
  - intros cps ob_sval enc Henc.
    rewrite (case_pointer_string Pointee (PyUnicode cps) eq_refl Hcc).
    unfold ConvertArgsSwitch.string_shortcut. monad_simpl.
    rewrite Henc. reflexivity.
Qed.

Lemma string_shortcut_bytes_and_text_witness :
  ConvertArgs (H := lp64) (H0 := example_host) const_char_ptr
    (PyBytes 700 [104; 105]) ([], [])
  = (Ok (Some (CPointerObj (PointerType const_char) (emplace_owned 700))),
     ([CPointerObj (PointerType const_char) (emplace_owned 700)], []))
  /\ ConvertArgs (H := lp64) (H0 := example_host) const_char_ptr
       (PyUnicode [104; 105]) ([], [])
     = (Ok (Some (CPointerObj (PointerType const_char) (emplace_owned 4096))),
        ([CPointerObj (PointerType const_char) (emplace_owned 4096)],
         [PyBytes 4096 [104; 105]])).
Proof.
  destruct (string_shortcut_bytes_and_text (H := lp64) (H0 := example_host)
              const_char false [] [] eq_refl) as [Hbytes Htext].
  split.
  - exact (Hbytes 700 [104; 105]).
  - exact (Htext [104; 105] 4096 [104; 105] eq_refl).
Defined.

(** C4.  In the conversion of a pointer argument, a string is encoded (the
    encoded object is the one thing ever added to [PyObjsHolder]) only when
    the pointee is a [const char] and the host value is a text string.  For
    a pointee [char] that is not const, a host value that is not already a
    pointer handle is converted as a buffer, with write access requested:
    nothing is encoded, and a text string, which exports no buffer, is
    refused by the host runtime when the buffer is requested. *)
Theorem string_shortcut_only_const_char `{Platform} `{HostRuntime}
    (Pointee : QualType) (c : bool) (Obj : PyObject)
    (s s' : ConvertArgsSwitch.Holders) (r : result (option CObj)) :
  ConvertArgs (mkQualType (PointerType Pointee) c) Obj s = (r, s') ->
  (s'.2 <> s.2 ->
   is_const_char Pointee = true
   /\ exists (cps : list Z) (ob_sval : Z) (enc : list Z),
        Obj = PyUnicode cps
        /\ PyUnicode_AsUTF8String cps = Some (ob_sval, enc)
        /\ s'.2 = s.2 ++ [PyBytes ob_sval enc])
  /\ (getType Pointee = BasicType Char ->
      hasConst Pointee = false ->
      dyn_cast_obj CPointerObjClass Obj = None ->
      ConvertArgsSwitch.buffer_path (PointerType Pointee) Pointee true Obj s
      = (r, s')
      /\ s'.2 = s.2
      /\ (forall cps : list Z,
            Obj = PyUnicode cps -> r = Throw error_already_set /\ s' = s)).
Proof.
  unfold ConvertArgs. simpl. intros Hconv. split.
  - intros Hchanged.
    destruct (dyn_cast_obj CPointerObjClass Obj) as [PtrObj|] eqn:Hdyn.
    { unfold ConvertArgsSwitch.case_pointer in Hconv. rewrite Hdyn in Hconv.
      injection Hconv as _ <-. contradiction. }
    destruct (is_const_char Pointee) eqn:Hcc.
    2:{ rewrite (case_pointer_buffer Pointee Obj Hdyn Hcc) in Hconv.
        apply buffer_path_PyH in Hconv. contradiction. }
    split; [reflexivity|].
    rewrite (case_pointer_string Pointee Obj Hdyn Hcc) in Hconv.
    unfold ConvertArgsSwitch.string_shortcut in Hconv. monad_simpl.
    destruct Obj as [| | |cps| | |];
      try (injection Hconv as _ <-; contradiction).
    destruct (PyUnicode_AsUTF8String cps) as [[ob_sval enc]|] eqn:Henc;
      monad_simpl; [|injection Hconv as _ <-; contradiction].
    injection Hconv as _ <-. exists cps, ob_sval, enc. auto.
  - intros Hchar Hconst Hdyn.
    assert (Hcc : is_const_char Pointee = false).
    { unfold is_const_char. now rewrite Hconst. }
    rewrite (case_pointer_buffer Pointee Obj Hdyn Hcc) in Hconv.
    rewrite Hconst in Hconv. simpl in Hconv.
    split; [exact Hconv|]. split.
    + eapply buffer_path_PyH, Hconv.
    + intros cps ->. unfold ConvertArgsSwitch.buffer_path in Hconv.
      monad_simpl. injection Hconv as <- <-. split; reflexivity.
Qed.

Lemma string_shortcut_only_const_char_witness :
  (is_const_char const_char = true
   /\ exists (cps : list Z) (ob_sval : Z) (enc : list Z),
        PyUnicode [104; 105] = PyUnicode cps
        /\ PyUnicode_AsUTF8String (HostRuntime := example_host) cps
           = Some (ob_sval, enc)
        /\ [PyBytes 4096 [104; 105]] = [] ++ [PyBytes ob_sval enc])
  /\ ConvertArgs (H := lp64) (H0 := example_host) char_ptr
       (PyUnicode [104; 105]) ([], [])
     = (Throw error_already_set, ([], [])).
Proof.
  split.
  - apply (proj1 (string_shortcut_only_const_char (H := lp64)
                    (H0 := example_host) const_char false
                    (PyUnicode [104; 105]) ([], [])
                    ([CPointerObj (PointerType const_char)
                        (emplace_owned 4096)],
                     [PyBytes 4096 [104; 105]])
                    (Ok (Some (CPointerObj (PointerType const_char)
                                 (emplace_owned 4096))))
                    eq_refl)).
    discriminate.
  - destruct (proj2 (string_shortcut_only_const_char (H := lp64)
                       (H0 := example_host) char_ false
                       (PyUnicode [104; 105]) ([], []) ([], [])
                       (Throw error_already_set) eq_refl)
                eq_refl eq_refl eq_refl) as [Hbuf _].
    exact Hbuf.
Defined.

(** ** Memory views *)

(** With enough fuel, [strlen_from] is the distance to the first null
    byte. *)
Lemma strlen_from_first_null (k fuel : nat) (m : mem) (p : Z) :
  (k < fuel)%nat ->
  (forall i : Z, 0 <= i < Z.of_nat k -> load_byte m (p + i) <> 0) ->
  load_byte m (p + Z.of_nat k) = 0 ->
  strlen_from fuel m p = Z.of_nat k.
Proof.
  revert fuel p. induction k as [|k IH]; intros fuel p Hfuel Hrun Hnull.
  - destruct fuel as [|fuel]; [lia|]. simpl.
    replace (p + Z.of_nat 0) with p in Hnull by lia.
    now rewrite Hnull.
  - destruct fuel as [|fuel]; [lia|]. simpl.
    assert (Hp : load_byte m p <> 0).
    { replace p with (p + 0) by lia. apply Hrun. lia. }
    apply Z.eqb_neq in Hp. rewrite Hp.
    rewrite (IH fuel (p + 1)); [lia | lia | |].
    + intros i Hi. replace (p + 1 + i) with (p + (1 + i)) by lia.
      apply Hrun. lia.
    + replace (p + 1 + Z.of_nat k) with (p + Z.of_nat (S k)) by lia.
      exact Hnull.
Qed.

(** A run of non-null bytes lies within the written addresses, so it is
    no longer than the memory is large. *)
Lemma nonnull_run_size (n : Z) (m : mem) (p : Z) :
  0 <= n ->
  (forall i : Z, 0 <= i < n -> load_byte m (p + i) <> 0) ->
  (Z.to_nat n <= size m)%nat.
Proof.
  intros Hn Hrun.
  rewrite <- (length_seqZ p n), <- (size_list_to_set (C := gset Z));
    [|apply NoDup_seqZ].
  rewrite <- (size_dom (D := gset Z) m). apply subseteq_size.
  intros a Ha. apply elem_of_list_to_set, elem_of_seqZ in Ha.
  apply elem_of_dom. specialize (Hrun (a - p) ltac:(lia)).
  replace (p + (a - p)) with a in Hrun by lia.
  unfold load_byte in Hrun. destruct (m !! a); [eauto | contradiction].
Qed.

(** C9.  [getMemoryViewCStr] throws [TypeError] whenever the pointee type
    is not the Basic type [char], and reads nothing else.  When the pointee
    is [char] and the first null byte from the address the pointer holds is
    [n] bytes away, the view returned is one-dimensional, starts at that
    address, and has [n] elements of one byte. *)
Theorem getMemoryViewCStr_rule `{Platform} (Pointee : QualType) (D : Data)
    (m : mem) :
  (getType Pointee <> BasicType Char ->
   CPointerObj_getMemoryViewCStr Pointee D m
   = (Throw (TypeError "pointer must be a pointer to char*!"), m))
  /\ (getType Pointee = BasicType Char ->
      forall n : Z,
        0 <= n ->
        (forall i : Z, 0 <= i < n -> load_byte m (getPtr D m + i) <> 0) ->
        load_byte m (getPtr D m + n) = 0 ->
        exists Info : buffer_info,
          CPointerObj_getMemoryViewCStr Pointee D m = (Ok Info, m)
          /\ bi_ptr Info = getPtr D m
          /\ bi_ndim Info = 1
          /\ bi_itemsize Info = 1
          /\ bi_size Info = n).
Proof.
  unfold CPointerObj_getMemoryViewCStr. split.
  - intros Hty. destruct (getType Pointee) as [[]| | | | | |];
      first [contradiction | reflexivity].
  - intros Hty n Hn Hrun Hnull. rewrite Hty. monad_simpl.
    eexists. split; [reflexivity|].
    unfold CPointerObj_getMemoryView. rewrite Hty. simpl.
    repeat split. unfold strlen.
    rewrite (strlen_from_first_null (Z.to_nat n)).
    + lia.
    + pose proof (nonnull_run_size n m (getPtr D m) Hn Hrun). lia.
    + intros i Hi. apply Hrun. lia.
    + now rewrite Z2Nat.id.
Qed.

Lemma getMemoryViewCStr_rule_witness :
  CPointerObj_getMemoryViewCStr (H := lp64) int_ (emplace_owned 10)
    example_mem
  = (Throw (TypeError "pointer must be a pointer to char*!"), example_mem)
  /\ exists Info : buffer_info,
       CPointerObj_getMemoryViewCStr (H := lp64) const_char (view 100)
         example_mem
       = (Ok Info, example_mem)
       /\ bi_ptr Info = 10 /\ bi_ndim Info = 1 /\ bi_itemsize Info = 1
       /\ bi_size Info = 2.
Proof.
  split.
  - apply (proj1 (getMemoryViewCStr_rule (H := lp64) int_ (emplace_owned 10)
                    example_mem)).
    discriminate.
  - apply (proj2 (getMemoryViewCStr_rule (H := lp64) const_char (view 100)
                    example_mem)
             eq_refl 2).
    + lia.
    + intros i Hi.
      assert (Hcases : i = 0 \/ i = 1) by lia.
      destruct Hcases as [-> | ->]; vm_compute; discriminate.
    + vm_compute. reflexivity.
Defined.

(** ** Round trip of the Basic kinds *)

(** *** Bytes in memory *)

Lemma length_to_bytes (n : nat) (v : Z) : length (to_bytes n v) = n.
Proof. revert v. induction n as [|n IH]; intros v; simpl; auto. Qed.

Lemma of_to_bytes (n : nat) (v : Z) :
  of_bytes (to_bytes n v) = v mod 256 ^ Z.of_nat n.
Proof.
  revert v. induction n as [|n IH]; intros v.
  - simpl. now rewrite Z.mod_1_r.
  - cbn [to_bytes of_bytes]. rewrite IH.
    rewrite Nat2Z.inj_succ, Z.pow_succ_r by lia.
    rewrite Z.rem_mul_r by lia. reflexivity.
Qed.

Lemma load_byte_store_bytes_below (bs : list Z) (m : mem) (p q : Z) :
  q < p -> load_byte (store_bytes m p bs) q = load_byte m q.
Proof.
  revert m p. induction bs as [|b bs IH]; intros m p Hq; simpl; [reflexivity|].
  rewrite IH by lia. unfold load_byte.
  rewrite lookup_insert_ne by lia. reflexivity.
Qed.

Lemma load_store_bytes (bs : list Z) (m : mem) (p : Z) :
  load_bytes (store_bytes m p bs) p (length bs) = bs.
Proof.
  revert m p. induction bs as [|b bs IH]; intros m p; simpl; [reflexivity|].
  rewrite IH. f_equal.
  rewrite load_byte_store_bytes_below by lia.
  unfold load_byte. now rewrite lookup_insert_eq.
Qed.

Lemma load_store `{Platform} (T : CType) (p v : Z) (m : mem) :
  0 <= sizeof T -> 0 <= v < 2 ^ bits T ->
  load T (store T p v m) p = v.
Proof.
  intros Hsize Hv. unfold load, store.
  rewrite <- (length_to_bytes (Z.to_nat (sizeof T)) v) at 2.
  rewrite load_store_bytes, of_to_bytes, Z2Nat.id by exact Hsize.
  change 256 with (2 ^ 8). rewrite <- Z.pow_mul_r by lia.
  apply Z.mod_small. exact Hv.
Qed.

(** *** The two floating-point formats

    Conversion to a wider format and back is the identity on the finite
    values and the infinities; a NaN comes back quiet, and its image in
    the wider format is the same. *)

Section FloatFacts.
Variables eb mb : Z.
Hypothesis Heb : 2 <= eb.
Hypothesis Hmb : 1 <= mb.

Lemma format_powers :
  0 < 2 ^ mb /\ 4 <= 2 ^ eb
  /\ sign_bit eb mb = 2 ^ eb * 2 ^ mb
  /\ infinity eb mb = (2 ^ eb - 1) * 2 ^ mb
  /\ 2 ^ (mb + 1) = 2 * 2 ^ mb.
Proof.
  repeat split.
  - apply Z.pow_pos_nonneg; lia.
  - change 4 with (2 ^ 2). apply Z.pow_le_mono_r; lia.
  - unfold sign_bit. apply Z.pow_add_r; lia.
  - rewrite Z.pow_add_r by lia. lia.
Qed.

(** The fields of [(s * E + k) * P + r]. *)
Lemma fields_of_sum (s k r : Z) :
  0 <= s -> 0 <= k < 2 ^ eb -> 0 <= r < 2 ^ mb ->
  let b := (s * 2 ^ eb + k) * 2 ^ mb + r in
  f_sign eb mb b = s /\ f_exp eb mb b = k /\ f_man mb b = r.
Proof.
  intros Hs Hk Hr b. destruct format_powers as (HP & HE & Hsb & _ & _).
  assert (Hdiv : b / 2 ^ mb = s * 2 ^ eb + k).
  { symmetry. apply (Z.div_unique_pos _ _ _ r); [lia|]. unfold b. lia. }
  repeat split.
  - unfold f_sign. fold (sign_bit eb mb). rewrite Hsb.
    rewrite (Z.mul_comm (2 ^ eb)), <- Z.div_div by lia. rewrite Hdiv.
    symmetry. apply (Z.div_unique_pos _ _ _ k); lia.
  - unfold f_exp. rewrite Hdiv.
    symmetry. apply (Z.mod_unique_pos _ _ s); lia.
  - unfold f_man. symmetry.
    apply (Z.mod_unique_pos _ _ (s * 2 ^ eb + k)); [lia|]. unfold b. lia.
Qed.

Lemma decode_encode (s q t : Z) :
  0 <= s -> canonical eb mb q t ->
  let b := float_encode eb mb s q t in
  f_sign eb mb b = s
  /\ f_exp eb mb b <> 2 ^ eb - 1
  /\ f_sig eb mb b = q
  /\ f_ulp eb mb b = t.
Proof.
  intros Hs (Ht & Hq & Hsub & Hbody) b.
  destruct format_powers as (HP & HE & Hsb & Hinf & Htwo).
  rewrite Hinf in Hbody. rewrite Htwo in Hq.
  set (P := 2 ^ mb) in *. set (E := 2 ^ eb) in *.
  set (k := t - tmin eb mb + q / P).
  assert (Hc : q / P = 0 /\ q mod P = q \/ q / P = 1 /\ q mod P = q - P).
  { destruct (Z_lt_ge_dec q P).
    - left. split; [apply Z.div_small | apply Z.mod_small]; lia.
    - right. split.
      + symmetry. apply (Z.div_unique_pos _ _ _ (q - P)); lia.
      + symmetry. apply (Z.mod_unique_pos _ _ 1); lia. }
  assert (Hb : b = (s * E + k) * P + q mod P).
  { unfold b, float_encode, k. rewrite Hsb. fold P E.
    pose proof (Z.div_mod q P ltac:(lia)). nia. }
  assert (Hk : 0 <= k < E - 1).
  { unfold k. destruct Hc as [[Hc1 Hc2]|[Hc1 Hc2]]; rewrite Hc1; nia. }
  pose proof (Z.mod_pos_bound q P HP) as Hr.
  destruct (fields_of_sum s k (q mod P)) as (Hsign & Hexp & Hman);
    [lia | fold E; lia | fold P; lia |].
  fold P E in Hsign, Hexp, Hman. rewrite <- Hb in Hsign, Hexp, Hman.
  repeat split.
  - exact Hsign.
  - fold E. lia.
  - unfold f_sig. rewrite Hexp, Hman. fold P.
    destruct (Z.eqb_spec k 0); unfold k in *;
      destruct Hc as [[Hc1 Hc2]|[Hc1 Hc2]]; rewrite ?Hc1, ?Hc2 in *;
      try lia; specialize (Hsub ltac:(nia)); lia.
  - unfold f_ulp. rewrite Hexp. unfold k, tmin in *.
    destruct Hc as [[Hc1 Hc2]|[Hc1 Hc2]]; rewrite Hc1.
    + specialize (Hsub ltac:(nia)). lia.
    + lia.
Qed.

Lemma encode_decode (b : Z) :
  0 <= b < 2 * sign_bit eb mb ->
  f_exp eb mb b <> 2 ^ eb - 1 ->
  0 <= f_sign eb mb b <= 1
  /\ canonical eb mb (f_sig eb mb b) (f_ulp eb mb b)
  /\ float_encode eb mb (f_sign eb mb b) (f_sig eb mb b) (f_ulp eb mb b) = b.
Proof.
  intros Hb Hexp. destruct format_powers as (HP & HE & Hsb & Hinf & Htwo).
  unfold canonical, float_encode, f_sig, f_ulp. rewrite Hinf, Htwo.
  unfold f_sign, f_exp, f_man in *. fold (sign_bit eb mb).
  rewrite Hsb in *.
  set (P := 2 ^ mb) in *. set (E := 2 ^ eb) in *.
  pose proof (Z.div_mod b P ltac:(lia)) as Hb1.
  pose proof (Z.mod_pos_bound b P HP) as Hr.
  pose proof (Z.div_mod (b / P) E ltac:(lia)) as Hb2.
  pose proof (Z.mod_pos_bound (b / P) E ltac:(lia)) as He.
  assert (Hs : b / (E * P) = b / P / E).
  { rewrite (Z.mul_comm E P), Z.div_div; lia. }
  rewrite Hs.
  set (r := b mod P) in *. set (e := (b / P) mod E) in *.
  set (s := b / P / E) in *.
  assert (0 <= s <= 1) by nia.
  unfold tmin.
  destruct (Z.eqb_spec e 0) as [He0|He0].
  - rewrite He0 in *. repeat split; try lia; nia.
  - repeat split; try lia; nia.
Qed.

Lemma round_float_exact (s sig ex q t : Z) :
  canonical eb mb q t -> 0 <= sig ->
  ex <= t /\ sig = q * 2 ^ (t - ex) \/ t <= ex /\ q = sig * 2 ^ (ex - t) ->
  round_float eb mb s sig ex = float_encode eb mb s q t.
Proof.
  intros (Ht & Hq & Hsub & Hbody) Hsig Hval.
  destruct format_powers as (HP & HE & Hsb & Hinf & Htwo).
  unfold round_float, float_encode.
  assert (Hpow : forall n, 0 <= n -> 0 < 2 ^ n).
  { intros n Hn. apply Z.pow_pos_nonneg; lia. }
  destruct (Z.eqb_spec sig 0) as [Hz|Hnz].
  - assert (q = 0).
    { destruct Hval as [[Hle ->]|[Hle ->]]; [|lia].
      pose proof (Hpow (t - ex) ltac:(lia)). nia. }
    subst q. rewrite (Hsub HP). lia.
  - assert (Hqpos : 0 < q).
    { destruct Hval as [[Hle Heq]|[Hle Heq]];
        [pose proof (Hpow (t - ex) ltac:(lia)) | pose proof (Hpow (ex - t) ltac:(lia))];
        nia. }
    assert (Hlog : ex + Z.log2 sig = t + Z.log2 q).
    { destruct Hval as [[Hle ->]|[Hle ->]];
        rewrite Z.log2_mul_pow2 by lia; lia. }
    assert (Ht' : Z.max (ex + Z.log2 sig - mb) (tmin eb mb) = t).
    { rewrite Hlog. destruct (Z_lt_ge_dec q (2 ^ mb)) as [Hlt|Hge].
      - rewrite (Hsub Hlt). apply Z.log2_lt_pow2 in Hlt; lia.
      - rewrite (Z.log2_unique q mb); lia. }
    cbv zeta. rewrite Ht'.
    assert (Hq' : (if t <=? ex then sig * 2 ^ (ex - t)
                   else if (2 ^ (t - ex - 1) <? sig mod 2 ^ (t - ex))
                           || (2 ^ (t - ex - 1) =? sig mod 2 ^ (t - ex))
                              && Z.odd (sig / 2 ^ (t - ex))
                        then sig / 2 ^ (t - ex) + 1
                        else sig / 2 ^ (t - ex)) = q).
    { destruct (Z.leb_spec t ex) as [Hle|Hgt].
      - destruct Hval as [[Hle' ->]|[Hle' ->]]; [|reflexivity].
        replace (t - ex) with 0 by lia. replace (ex - t) with 0 by lia. lia.
      - destruct Hval as [[Hle' ->]|[Hle' Heq]]; [|lia].
        pose proof (Hpow (t - ex) ltac:(lia)).
        rewrite Z.div_mul, Z.mod_mul by lia.
        pose proof (Hpow (t - ex - 1) ltac:(lia)).
        destruct (Z.ltb_spec (2 ^ (t - ex - 1)) 0); [lia|].
        destruct (Z.eqb_spec (2 ^ (t - ex - 1)) 0); [lia|]. reflexivity. }
    rewrite Hq', Z.min_l by lia. reflexivity.
Qed.

Lemma special_fields (s m : Z) :
  0 <= s -> 0 <= m < 2 ^ mb ->
  let b := s * sign_bit eb mb + infinity eb mb + m in
  f_sign eb mb b = s /\ f_exp eb mb b = 2 ^ eb - 1 /\ f_man mb b = m.
Proof.
  intros Hs Hm b. destruct format_powers as (HP & HE & Hsb & Hinf & _).
  replace b with ((s * 2 ^ eb + (2 ^ eb - 1)) * 2 ^ mb + m)
    by (unfold b; rewrite Hsb, Hinf; ring).
  apply fields_of_sum; lia.
Qed.

Lemma special_decompose (b : Z) :
  0 <= b < 2 * sign_bit eb mb -> f_exp eb mb b = 2 ^ eb - 1 ->
  0 <= f_sign eb mb b <= 1 /\ 0 <= f_man mb b < 2 ^ mb
  /\ b = f_sign eb mb b * sign_bit eb mb + infinity eb mb + f_man mb b.
Proof.
  intros Hb Hexp. destruct format_powers as (HP & HE & Hsb & Hinf & _).
  unfold f_sign, f_exp, f_man in *. fold (sign_bit eb mb).
  rewrite Hinf, Hsb in *.
  set (P := 2 ^ mb) in *. set (E := 2 ^ eb) in *.
  pose proof (Z.div_mod b P ltac:(lia)) as Hb1.
  pose proof (Z.mod_pos_bound b P HP) as Hr.
  pose proof (Z.div_mod (b / P) E ltac:(lia)) as Hb2.
  assert (Hs : b / (E * P) = b / P / E).
  { rewrite (Z.mul_comm E P), Z.div_div; lia. }
  rewrite Hs, Hexp in *. repeat split; try lia; nia.
Qed.
End FloatFacts.


Lemma lor_lt_pow2 (a b n : Z) :
  0 <= a < 2 ^ n -> 0 <= b < 2 ^ n -> 0 <= Z.lor a b < 2 ^ n.
Proof.
  intros Ha Hb. assert (Hnn : 0 <= Z.lor a b) by (apply Z.lor_nonneg; lia).
  split; [exact Hnn|].
  destruct (Z.eq_dec (Z.lor a b) 0) as [->|Hne]; [lia|].
  apply Z.log2_lt_pow2; [lia|]. rewrite Z.log2_lor by lia.
  destruct (Z.eq_dec a 0) as [->|Ha0]; destruct (Z.eq_dec b 0) as [->|Hb0];
    try (rewrite Z.lor_0_r in Hne || rewrite Z.lor_0_l in Hne); try lia.
  - apply Z.max_lub_lt; [simpl|apply Z.log2_lt_pow2]; try lia.
    destruct (Z_lt_ge_dec 0 n); [lia|].
    assert (2 ^ n <= 1); [|lia].
    destruct (Z.eq_dec n 0) as [->|]; [simpl; lia|].
    rewrite Z.pow_neg_r; lia.
  - apply Z.max_lub_lt; [apply Z.log2_lt_pow2|simpl]; try lia.
    destruct (Z_lt_ge_dec 0 n); [lia|].
    assert (2 ^ n <= 1); [|lia].
    destruct (Z.eq_dec n 0) as [->|]; [simpl; lia|].
    rewrite Z.pow_neg_r; lia.
  - apply Z.max_lub_lt; apply Z.log2_lt_pow2; lia.
Qed.

Lemma float_finite_roundtrip (x : Z) :
  0 <= x < 2 ^ 32 -> f_exp 8 23 x <> 255 ->
  double_to_float (float_to_double x) = x.
Proof.
  intros Hx Hfin.
  destruct (encode_decode 8 23 ltac:(lia) ltac:(lia) x) as (Hs & Hcan & Henc);
    [exact Hx | exact Hfin |].
  set (s := f_sign 8 23 x) in *. set (q := f_sig 8 23 x) in *.
  set (t := f_ulp 8 23 x) in *.
  assert (Hf2d : float_to_double x = round_float 11 52 s q t).
  { unfold float_to_double, convert_float.
    destruct (Z.eqb_spec (f_exp 8 23 x) (2 ^ 8 - 1)); [contradiction|].
    reflexivity. }
  pose proof Hcan as (Ht & Hq & Hsub & Hbody).
  change (tmin 8 23) with (-149) in *. change (infinity 8 23) with (255 * 2 ^ 23) in *.
  change (2 ^ (23 + 1)) with (2 ^ 24) in *.
  assert (exists q64 t64,
            canonical 11 52 q64 t64 /\ 0 <= q64
            /\ t64 <= t /\ q64 = q * 2 ^ (t - t64)) as (q64 & t64 & Hcan64 & Hq64 & Hle & Hrel).
  { destruct (Z.eq_dec q 0) as [Hq0|Hq0].
    - exists 0, (-1074). rewrite Hq0. repeat split; try lia; vm_compute; congruence.
    - set (j := 52 - Z.log2 q).
      assert (Hlog : 0 <= Z.log2 q < 24).
      { split; [apply Z.log2_nonneg|]. apply Z.log2_lt_pow2; lia. }
      pose proof (Z.log2_spec q ltac:(lia)) as [Hlo Hhi].
      assert (Hj : 2 ^ Z.log2 q * 2 ^ j = 2 ^ 52).
      { rewrite <- Z.pow_add_r by lia. f_equal. lia. }
      assert (Hj' : 2 ^ Z.succ (Z.log2 q) * 2 ^ j = 2 ^ 53).
      { rewrite <- Z.pow_add_r by lia. f_equal. lia. }
      assert (0 < 2 ^ j) by (apply Z.pow_pos_nonneg; lia).
      exists (q * 2 ^ j), (t - j).
      replace (t - (t - j)) with j by lia.
      unfold canonical. change (tmin 11 52) with (-1074).
      change (infinity 11 52) with (2047 * 2 ^ 52).
      change (2 ^ (52 + 1)) with (2 ^ 53).
      repeat split; try lia; try nia. }
  assert (Hd : float_to_double x = float_encode 11 52 s q64 t64).
  { rewrite Hf2d. apply round_float_exact; solve [lia | assumption]. }
  destruct (decode_encode 11 52 ltac:(lia) ltac:(lia) s q64 t64)
    as (Hsign & Hexp & Hsig & Hulp); [lia | exact Hcan64 |].
  rewrite <- Hd in Hsign, Hexp, Hsig, Hulp.
  unfold double_to_float, convert_float.
  destruct (Z.eqb_spec (f_exp 11 52 (float_to_double x)) (2 ^ 11 - 1));
    [contradiction|].
  rewrite Hsign, Hsig, Hulp. rewrite <- Henc.
  apply round_float_exact; solve [lia | assumption].
Qed.

Lemma convert_float_special (eb1 mb1 eb2 mb2 s m : Z) :
  2 <= eb1 -> 1 <= mb1 -> 0 <= s -> 0 <= m < 2 ^ mb1 ->
  convert_float eb1 mb1 eb2 mb2 (s * sign_bit eb1 mb1 + infinity eb1 mb1 + m)
  = s * sign_bit eb2 mb2 + infinity eb2 mb2
    + (if m =? 0 then 0
       else Z.lor (2 ^ (mb2 - 1))
              (if mb1 <=? mb2 then m * 2 ^ (mb2 - mb1)
               else m / 2 ^ (mb1 - mb2))).
Proof.
  intros Heb Hmb Hs Hm. unfold convert_float.
  destruct (special_fields eb1 mb1 Heb Hmb s m Hs Hm) as (-> & -> & ->).
  rewrite Z.eqb_refl. destruct (m =? 0); lia.
Qed.

Lemma float_special_roundtrip (x : Z) :
  0 <= x < 2 ^ 32 -> f_exp 8 23 x = 255 ->
  0 <= double_to_float (float_to_double x) < 2 ^ 32
  /\ float_to_double (double_to_float (float_to_double x))
     = float_to_double x.
Proof.
  intros Hx Hexp.
  destruct (special_decompose 8 23 ltac:(lia) ltac:(lia) x Hx Hexp)
    as (Hs & Hm & Hdec).
  set (s := f_sign 8 23 x) in *. set (m := f_man 23 x) in *.
  unfold float_to_double, double_to_float. rewrite Hdec.
  rewrite (convert_float_special 8 23 11 52) by lia.
  change (23 <=? 52) with true. cbv iota.
  change (52 - 23) with 29. change (52 - 1) with 51.
  destruct (Z.eqb_spec m 0) as [Hm0|Hm0].
  - rewrite Z.add_0_r.
    replace (s * sign_bit 11 52 + infinity 11 52)
      with (s * sign_bit 11 52 + infinity 11 52 + 0) by lia.
    rewrite (convert_float_special 11 52 8 23) by lia.
    change (0 =? 0) with true. cbv iota.
    rewrite (convert_float_special 8 23 11 52) by lia.
    change (0 =? 0) with true. cbv iota.
    change (sign_bit 8 23) with (2 ^ 31).
    change (infinity 8 23) with (255 * 2 ^ 23).
    split; lia.
  - set (pl := Z.lor (2 ^ 51) (m * 2 ^ 29)).
    assert (Hpl : 0 <= pl < 2 ^ 52).
    { apply lor_lt_pow2; lia. }
    assert (Hpl0 : pl <> 0).
    { unfold pl. intros Hz. apply Z.lor_eq_0_iff in Hz. lia. }
    rewrite (convert_float_special 11 52 8 23) by lia.
    apply Z.eqb_neq in Hpl0. rewrite Hpl0.
    change (52 <=? 23) with false. cbv iota.
    change (52 - 23) with 29. change (23 - 1) with 22.
    assert (Hshift : pl / 2 ^ 29 = Z.lor (2 ^ 22) m).
    { unfold pl. rewrite <- Z.shiftl_mul_pow2, <- Z.shiftr_div_pow2 by lia.
      rewrite Z.shiftr_lor, Z.shiftr_shiftl_l by lia.
      replace (29 - 29) with 0 by lia. rewrite Z.shiftl_0_r. reflexivity. }
    rewrite Hshift, Z.lor_assoc, Z.lor_diag.
    set (m' := Z.lor (2 ^ 22) m).
    assert (Hm' : 0 <= m' < 2 ^ 23).
    { apply lor_lt_pow2; lia. }
    assert (Hm'0 : m' <> 0).
    { unfold m'. intros Hz. apply Z.lor_eq_0_iff in Hz. lia. }
    split.
    + change (sign_bit 8 23) with (2 ^ 31).
      change (infinity 8 23) with (255 * 2 ^ 23). lia.
    + rewrite (convert_float_special 8 23 11 52) by lia.
      apply Z.eqb_neq in Hm'0. rewrite Hm'0.
      change (23 <=? 52) with true. cbv iota.
      change (52 - 23) with 29. change (52 - 1) with 51.
      f_equal. unfold m', pl.
      rewrite <- !Z.shiftl_mul_pow2 by lia.
      rewrite Z.shiftl_lor, Z.lor_assoc.
      change (Z.shiftl (2 ^ 22) 29) with (2 ^ 51).
      rewrite Z.lor_diag. reflexivity.
Qed.

Lemma float_roundtrip (x : Z) :
  0 <= x < 2 ^ 32 ->
  0 <= double_to_float (float_to_double x) < 2 ^ 32
  /\ float_to_double (double_to_float (float_to_double x))
     = float_to_double x.
Proof.
  intros Hx. destruct (Z.eq_dec (f_exp 8 23 x) 255) as [Hsp|Hfin].
  - apply float_special_roundtrip; assumption.
  - rewrite (float_finite_roundtrip x Hx Hfin). split; [exact Hx|reflexivity].
Qed.

(** *** The casters *)

(** Replaces the closed powers of two by their values. *)
Ltac eval_pow2 :=
  repeat match goal with
         | |- context [2 ^ ?n] =>
             let v := eval vm_compute in (2 ^ n) in
             progress change (2 ^ n) with v
         | H : context [2 ^ ?n] |- _ =>
             let v := eval vm_compute in (2 ^ n) in
             progress change (2 ^ n) with v in H
         end.

Lemma integer_cast_roundtrip `{Platform} (Kind : BasicKind) (z : Z) :
  is_integer_kind Kind = true -> Kind <> Char ->
  min_value (CTypeOf Kind) <= z <= max_value (CTypeOf Kind) ->
  cast_to (CTypeOf Kind) (PyLong z) = Ok (z mod 2 ^ bits (CTypeOf Kind))
  /\ 0 <= z mod 2 ^ bits (CTypeOf Kind) < 2 ^ bits (CTypeOf Kind)
  /\ py_cast (CTypeOf Kind) (z mod 2 ^ bits (CTypeOf Kind)) = PyLong z.
Proof.
  intros Hint Hchar Hz.
  assert (Hin : (min_value (CTypeOf Kind) <=? z)
                && (z <=? max_value (CTypeOf Kind)) = true).
  { apply andb_true_iff. split; apply Z.leb_le; lia. }
  destruct Kind; try discriminate; try contradiction;
    cbn [CTypeOf cast_to py_cast] in *; rewrite Hin;
    unfold min_value, max_value, bits in *; cbn in *; eval_pow2;
    (split; [reflexivity|]);
    (split; [Z.div_mod_to_equations; lia|]);
    try (f_equal; Z.div_mod_to_equations; lia);
    match goal with
    | |- context [?a <=? ?b] => destruct (Z.leb_spec a b)
    end; f_equal; Z.div_mod_to_equations; lia.
Qed.

(** C8.  For every Basic kind and every host value [v] of that kind,
    [set] stores [v] and a [get] of the same location afterwards returns
    [v]. *)
Theorem basic_set_get_roundtrip `{Platform} (Kind : BasicKind)
    (v : PyObject) (Ptr : Z) (m : mem) :
  value_of_kind Kind v ->
  exists m' : mem,
    set (BasicType Kind) Ptr v m = (Ok tt, m')
    /\ get (BasicType Kind) Ptr m' = (Ok v, m').
Proof.
  intros Hv. unfold set, get. simpl.
  unfold ValueSetter.case_basic, ValueGetter.case_basic.
  destruct Hv as [Kind z Hint Hchar Hz | c Hc | b Hb | f Hf].
  - destruct (integer_cast_roundtrip Kind z Hint Hchar Hz)
      as (Hcast & Hrange & Hback).
    monad_simpl. rewrite Hcast. eexists. split; [reflexivity|].
    rewrite load_store; [now rewrite Hback | | exact Hrange].
    destruct Kind; simpl; lia.
  - monad_simpl.
    destruct (Z.leb_spec 0 c); [|lia]. destruct (Z.ltb_spec c 256); [|lia].
    simpl. eexists. split; [reflexivity|].
    rewrite load_store; [reflexivity | simpl; lia | exact Hc].
  - monad_simpl. eexists. split; [reflexivity|].
    rewrite load_store; [reflexivity | simpl; lia | exact Hb].
  - destruct (float_roundtrip f Hf) as [Hrange Hback].
    monad_simpl. eexists. split; [reflexivity|].
    rewrite load_store; [now rewrite Hback | simpl; lia | exact Hrange].
Qed.

(** The smallest [int32_t], the largest [uint64_t], the null [char], a
    [float] NaN, the largest finite [float] and the negative [double]
    infinity. *)
Lemma basic_set_get_roundtrip_witness :
  (exists m' : mem,
     set (H := lp64) (BasicType Int32) 64 (PyLong (- 2 ^ 31)) ∅ = (Ok tt, m')
     /\ get (H := lp64) (BasicType Int32) 64 m' = (Ok (PyLong (- 2 ^ 31)), m'))
  /\ (exists m' : mem,
        set (H := lp64) (BasicType UInt64) 64 (PyLong (2 ^ 64 - 1)) ∅
        = (Ok tt, m')
        /\ get (H := lp64) (BasicType UInt64) 64 m'
           = (Ok (PyLong (2 ^ 64 - 1)), m'))
  /\ (exists m' : mem,
        set (H := lp64) (BasicType Char) 64 (PyUnicode [0]) ∅ = (Ok tt, m')
        /\ get (H := lp64) (BasicType Char) 64 m' = (Ok (PyUnicode [0]), m'))
  /\ (exists m' : mem,
        set (H := lp64) (BasicType Float32) 64
          (PyFloat (float_to_double 0x7FC00000)) ∅ = (Ok tt, m')
        /\ get (H := lp64) (BasicType Float32) 64 m'
           = (Ok (PyFloat (float_to_double 0x7FC00000)), m'))
  /\ (exists m' : mem,
        set (H := lp64) (BasicType Float32) 64
          (PyFloat (float_to_double 0x7F7FFFFF)) ∅ = (Ok tt, m')
        /\ get (H := lp64) (BasicType Float32) 64 m'
           = (Ok (PyFloat (float_to_double 0x7F7FFFFF)), m'))
  /\ (exists m' : mem,
        set (H := lp64) (BasicType Float64) 64 (PyFloat 0xFFF0000000000000) ∅
        = (Ok tt, m')
        /\ get (H := lp64) (BasicType Float64) 64 m'
           = (Ok (PyFloat 0xFFF0000000000000), m')).
Proof.
  repeat split.
  - apply (basic_set_get_roundtrip (H := lp64) Int32 (PyLong (- 2 ^ 31))).
    apply value_integer; [reflexivity | discriminate | vm_compute; split; discriminate].
  - apply (basic_set_get_roundtrip (H := lp64) UInt64 (PyLong (2 ^ 64 - 1))).
    apply value_integer; [reflexivity | discriminate | vm_compute; split; discriminate].
  - apply (basic_set_get_roundtrip (H := lp64) Char (PyUnicode [0])).
    apply value_char. lia.
  - apply (basic_set_get_roundtrip (H := lp64) Float32
             (PyFloat (float_to_double 0x7FC00000))).
    apply value_float. lia.
  - apply (basic_set_get_roundtrip (H := lp64) Float32
             (PyFloat (float_to_double 0x7F7FFFFF))).
    apply value_float. lia.
  - apply (basic_set_get_roundtrip (H := lp64) Float64
             (PyFloat 0xFFF0000000000000)).
    apply value_double. lia.
Defined.

(** * Further properties *)

(** ** Writing through [ValueSetter] *)

Lemma length_load_bytes (m : mem) (p : Z) (n : nat) :
  length (load_bytes m p n) = n.
Proof. revert p. induction n as [|n IH]; intros p; simpl; auto. Qed.

Lemma load_byte_store_bytes_outside (bs : list Z) (m : mem) (p q : Z) :
  q < p \/ p + Z.of_nat (length bs) <= q ->
  load_byte (store_bytes m p bs) q = load_byte m q.
Proof.
  revert m p. induction bs as [|b bs IH]; intros m p Hq; [reflexivity|].
  cbn [store_bytes]. cbn [length] in Hq. rewrite IH by lia.
  unfold load_byte. rewrite lookup_insert_ne by lia. reflexivity.
Qed.

Lemma load_bytes_ext (m m' : mem) (p : Z) (n : nat) :
  (forall q : Z, p <= q < p + Z.of_nat n -> load_byte m' q = load_byte m q) ->
  load_bytes m' p n = load_bytes m p n.
Proof.
  revert p. induction n as [|n IH]; intros p Hagree; [reflexivity|].
  cbn [load_bytes]. rewrite Hagree by lia. f_equal.
  apply IH. intros q Hq. apply Hagree. lia.
Qed.

(** [memcpy] gives the destination the bytes the source had, and leaves
    every byte outside the destination as it was. *)
Lemma memcpy_spec (Dst Src N : Z) (m : mem) :
  load_bytes (memcpy Dst Src N m) Dst (Z.to_nat N)
  = load_bytes m Src (Z.to_nat N)
  /\ (forall q : Z, q < Dst \/ Dst + N <= q ->
        load_byte (memcpy Dst Src N m) q = load_byte m q).
Proof.
  unfold memcpy. split.
  - rewrite <- (length_load_bytes m Src (Z.to_nat N)) at 2.
    apply load_store_bytes.
  - intros q Hq. apply load_byte_store_bytes_outside.
    rewrite length_load_bytes. lia.
Qed.

(** X1.  A [set] that throws has written nothing: the memory at the throw
    is the memory before the call, for every type, address and host
    value. *)
Theorem set_throw_keeps_memory `{Platform} (Ty : Type_) (Ptr : Z)
    (Obj : PyObject) (m m' : mem) (e : exn) :
  set Ty Ptr Obj m = (Throw e, m') -> m' = m.
Proof.
  unfold set. destruct Ty as [Kind| |Pointee|Elt N|C|C|Ret Params]; simpl;
    unfold ValueSetter.case_enum, ValueSetter.case_basic,
      ValueSetter.case_pointer, ValueSetter.case_composite,
      ValueSetter.case_array, ValueSetter.case_func, cast_ref;
    monad_simpl;
    repeat match goal with
           | |- context [match ?x with _ => _ end] => destruct x eqn:?
           end;
    intros Heq; now inversion Heq.
Qed.

Lemma set_throw_keeps_memory_witness :
  (set (H := lp64) (BasicType UInt8) 10 (PyLong 256) example_mem).2
  = example_mem.
Proof.
  apply (set_throw_keeps_memory (H := lp64) (BasicType UInt8) 10
           (PyLong 256) example_mem _ cast_error).
  reflexivity.
Defined.

(** X2.  Pointer identity.  [set] on a pointer-typed location with a
    pointer handle, of whatever pointer type, stores the address the handle
    holds; [get] of the location afterwards returns a view of the location,
    typed by the location, that holds that address. *)
Theorem pointer_set_get `{Platform} (Pointee : QualType) (Ty : Type_)
    (D : Data) (Ptr : Z) (m : mem) :
  0 <= sizeof_uintptr_t ->
  0 <= getPtr D m < 2 ^ (8 * sizeof_uintptr_t) ->
  exists m' : mem,
    set (PointerType Pointee) Ptr (PyCObj (CPointerObj Ty D)) m = (Ok tt, m')
    /\ get (PointerType Pointee) Ptr m'
       = (Ok (PyCObj (CPointerObj (PointerType Pointee) (view Ptr))), m')
    /\ getPtr (view Ptr) m' = getPtr D m.
Proof.
  intros Hsize Haddr. eexists. split; [reflexivity|]. split; [reflexivity|].
  cbn [getPtr CObj_getPtr]. apply load_store; assumption.
Qed.

Lemma pointer_set_get_witness :
  exists m' : mem,
    set (H := lp64) (PointerType int_) 200
      (PyCObj (CPointerObj (PointerType const_char) (view 100))) example_mem
    = (Ok tt, m')
    /\ get (H := lp64) (PointerType int_) 200 m'
       = (Ok (PyCObj (CPointerObj (PointerType int_) (view 200))), m')
    /\ getPtr (H := lp64) (view 200) m' = 10.
Proof.
  apply (pointer_set_get (H := lp64) int_ (PointerType const_char)
           (view 100) 200 example_mem).
  - simpl. lia.
  - vm_compute. split; [discriminate | reflexivity].
Defined.

Lemma case_composite_copies `{Platform} (Class_ : CObjClass) (C : Composite)
    (Co : CObj) (Ptr : Z) (m : mem) :
  isinstance Co Class_ = true ->
  disjoint Ptr (CObj_getData Co) (CObj_getSize Co) ->
  exists m' : mem,
    ValueSetter.case_composite Class_ C Ptr (PyCObj Co) m = (Ok tt, m')
    /\ load_bytes m' Ptr (Z.to_nat (CObj_getSize Co))
       = load_bytes m (CObj_getData Co) (Z.to_nat (CObj_getSize Co))
    /\ load_bytes m' (CObj_getData Co) (Z.to_nat (CObj_getSize Co))
       = load_bytes m (CObj_getData Co) (Z.to_nat (CObj_getSize Co))
    /\ (forall q : Z, q < Ptr \/ Ptr + CObj_getSize Co <= q ->
          load_byte m' q = load_byte m q).
Proof.
  intros Hinst Hdisj. unfold ValueSetter.case_composite, cast_ref.
  monad_simpl. rewrite Hinst.
  destruct (memcpy_spec Ptr (CObj_getData Co) (CObj_getSize Co) m)
    as [Hcopy Hout].
  eexists. split; [reflexivity|]. split; [exact Hcopy|].
  split; [|exact Hout].
  apply load_bytes_ext. intros q Hq. apply Hout.
  unfold disjoint in Hdisj. lia.
Qed.

(** X3.  Composite value semantics.  [set] on a struct (union) location
    with a struct (union) handle copies the bytes of the handle's data to
    the location: as many bytes as the type of the handle has, whatever the
    type of the location.  When the two regions do not overlap, the source
    keeps its bytes, and no byte outside the destination changes. *)
Theorem composite_set_copies `{Platform} (C : Composite) (Co : CObj)
    (Ptr : Z) (m : mem) :
  disjoint Ptr (CObj_getData Co) (CObj_getSize Co) ->
  (isinstance Co CStructObjClass = true ->
   exists m' : mem,
     set (StructType C) Ptr (PyCObj Co) m = (Ok tt, m')
     /\ load_bytes m' Ptr (Z.to_nat (CObj_getSize Co))
        = load_bytes m (CObj_getData Co) (Z.to_nat (CObj_getSize Co))
     /\ load_bytes m' (CObj_getData Co) (Z.to_nat (CObj_getSize Co))
        = load_bytes m (CObj_getData Co) (Z.to_nat (CObj_getSize Co))
     /\ (forall q : Z, q < Ptr \/ Ptr + CObj_getSize Co <= q ->
           load_byte m' q = load_byte m q))
  /\ (isinstance Co CUnionObjClass = true ->
      exists m' : mem,
        set (UnionType C) Ptr (PyCObj Co) m = (Ok tt, m')
        /\ load_bytes m' Ptr (Z.to_nat (CObj_getSize Co))
           = load_bytes m (CObj_getData Co) (Z.to_nat (CObj_getSize Co))
        /\ load_bytes m' (CObj_getData Co) (Z.to_nat (CObj_getSize Co))
           = load_bytes m (CObj_getData Co) (Z.to_nat (CObj_getSize Co))
        /\ (forall q : Z, q < Ptr \/ Ptr + CObj_getSize Co <= q ->
              load_byte m' q = load_byte m q)).
Proof.
  intros Hdisj. split; intros Hinst;
    exact (case_composite_copies _ C Co Ptr m Hinst Hdisj).
Qed.

(** A struct of four bytes at address [10], copied to a location typed as
    the struct [B], of eight bytes: four bytes are copied. *)
Lemma composite_set_copies_witness :
  exists m' : mem,
    set (H := lp64) struct_B 200 (PyCObj (CStructObj struct_A (view_void 10)))
      example_mem
    = (Ok tt, m')
    /\ load_bytes m' 200 (Z.to_nat 4) = load_bytes example_mem 10 (Z.to_nat 4)
    /\ (forall q : Z, q < 200 \/ 200 + 4 <= q ->
          load_byte m' q = load_byte example_mem q).
Proof.
  assert (Hd : disjoint 200
                 (CObj_getData (CStructObj struct_A (view_void 10)))
                 (CObj_getSize (H := lp64)
                    (CStructObj struct_A (view_void 10)))).
  { right. vm_compute. discriminate. }
  destruct (proj1 (composite_set_copies (H := lp64)
                     (mkComposite "B" [] 8 8)
                     (CStructObj struct_A (view_void 10)) 200 example_mem Hd)
              eq_refl)
    as (m' & Hset & Hdst & _ & Hout).
  exists m'. split; [exact Hset|]. split; [exact Hdst | exact Hout].
Defined.

(** X4.  [set] on an array location with an array handle copies as many
    bytes as the type of the location has, whatever the type of the
    handle.  When the two regions do not overlap, the source keeps its
    bytes, and no byte outside the destination changes. *)
Theorem array_set_copies `{Platform} (Elt : Type_) (N : Z) (Ty : Type_)
    (D : DataVoid) (Ptr : Z) (m : mem) :
  disjoint Ptr (getDataVoid D) (getSize (ArrayType Elt N)) ->
  exists m' : mem,
    set (ArrayType Elt N) Ptr (PyCObj (CArrayObj Ty D)) m = (Ok tt, m')
    /\ load_bytes m' Ptr (Z.to_nat (getSize (ArrayType Elt N)))
       = load_bytes m (getDataVoid D) (Z.to_nat (getSize (ArrayType Elt N)))
    /\ load_bytes m' (getDataVoid D) (Z.to_nat (getSize (ArrayType Elt N)))
       = load_bytes m (getDataVoid D) (Z.to_nat (getSize (ArrayType Elt N)))
    /\ (forall q : Z, q < Ptr \/ Ptr + getSize (ArrayType Elt N) <= q ->
          load_byte m' q = load_byte m q).
Proof.
  intros Hdisj.
  destruct (memcpy_spec Ptr (getDataVoid D) (getSize (ArrayType Elt N)) m)
    as [Hcopy Hout].
  eexists. split; [reflexivity|]. split; [exact Hcopy|].
  split; [|exact Hout].
  apply load_bytes_ext. intros q Hq. apply Hout.
  unfold disjoint in Hdisj. lia.
Qed.

Lemma array_set_copies_witness :
  exists m' : mem,
    set (H := lp64) (ArrayType (BasicType UInt8) 3) 200
      (PyCObj (CArrayObj (ArrayType (BasicType UInt8) 2) (view_void 10)))
      example_mem
    = (Ok tt, m')
    /\ load_bytes m' 200 (Z.to_nat 3) = load_bytes example_mem 10 (Z.to_nat 3)
    /\ (forall q : Z, q < 200 \/ 200 + 3 <= q ->
          load_byte m' q = load_byte example_mem q).
Proof.
  assert (Hd : disjoint 200 (getDataVoid (view_void 10))
                 (getSize (H := lp64) (ArrayType (BasicType UInt8) 3))).
  { right. vm_compute. discriminate. }
  destruct (array_set_copies (H := lp64) (BasicType UInt8) 3
              (ArrayType (BasicType UInt8) 2) (view_void 10) 200 example_mem
              Hd)
    as (m' & Hset & Hdst & _ & Hout).
  exists m'. split; [exact Hset|]. split; [exact Hdst | exact Hout].
Defined.

(** X5.  Round trip of an enum.  For an integer [z] in the range of
    [int], [set] on an enum location stores it and [get] afterwards
    returns it. *)
Theorem enum_set_get `{Platform} (z : Z) (Ptr : Z) (m : mem) :
  - 2 ^ 31 <= z <= 2 ^ 31 - 1 ->
  exists m' : mem,
    set EnumType Ptr (PyLong z) m = (Ok tt, m')
    /\ get EnumType Ptr m' = (Ok (PyLong z), m').
Proof.
  intros Hz.
  destruct (integer_cast_roundtrip Int32 z eq_refl ltac:(discriminate) Hz)
    as (Hcast & Hrange & Hback).
  unfold set, get. cbn [switch_ sw_enum ValueSetter.switch ValueGetter.switch].
  unfold ValueSetter.case_enum, ValueSetter.case_basic,
    ValueGetter.case_enum, EnumType_IntType.
  change (CTypeOf Int32) with c_int32_t in *.
  unfold mbind, M_bind, bind, lift, modify, gets, mret, M_ret, ret.
  rewrite Hcast. eexists. split; [reflexivity|].
  rewrite load_store; [now rewrite Hback | simpl; lia | exact Hrange].
Qed.

Lemma enum_set_get_witness :
  exists m' : mem,
    set (H := lp64) EnumType 64 (PyLong (-1)) ∅ = (Ok tt, m')
    /\ get (H := lp64) EnumType 64 m' = (Ok (PyLong (-1)), m').
Proof. apply (enum_set_get (H := lp64) (-1) 64 ∅). lia. Defined.

(** ** Locations do not interfere *)

Lemma store_outside `{Platform} (T : CType) (p v q : Z) (m : mem) :
  q < p \/ p + sizeof T <= q ->
  load_byte (store T p v m) q = load_byte m q.
Proof.
  intros Hq. unfold store. apply load_byte_store_bytes_outside.
  rewrite length_to_bytes. lia.
Qed.

Lemma load_agree `{Platform} (T : CType) (p : Z) (m m' : mem) :
  (forall q : Z, p <= q < p + sizeof T -> load_byte m' q = load_byte m q) ->
  load T m' p = load T m p.
Proof.
  intros Hagree. unfold load. f_equal. apply load_bytes_ext.
  intros q Hq. apply Hagree. lia.
Qed.

(** A [set] on a location whose type is not a struct or a union changes no
    byte outside the location. *)
Lemma set_footprint `{Platform} (Ty : Type_) (Ptr : Z) (Obj : PyObject)
    (m m' : mem) (r : result unit) :
  is_composite Ty = false ->
  set Ty Ptr Obj m = (r, m') ->
  forall q : Z, q < Ptr \/ Ptr + getSize Ty <= q ->
    load_byte m' q = load_byte m q.
Proof.
  intros Hcomp Hset q Hq. unfold set in Hset.
  destruct Ty as [Kind| |Pointee|Elt N|C|C|Ret Params]; try discriminate;
    cbn [switch_ sw_basic sw_enum sw_pointer sw_array sw_func
         ValueSetter.switch] in Hset;
    unfold ValueSetter.case_enum, ValueSetter.case_basic,
      ValueSetter.case_pointer, ValueSetter.case_array,
      ValueSetter.case_func in Hset;
    unfold mbind, M_bind, bind, lift, modify, gets, throw in Hset.
  - destruct (cast_to (CTypeOf Kind) Obj); injection Hset as _ <-;
      [apply store_outside; exact Hq | reflexivity].
  - destruct (cast_to EnumType_IntType Obj); injection Hset as _ <-;
      [apply store_outside; exact Hq | reflexivity].
  - destruct (cast_ref CPointerObjClass Obj); injection Hset as _ <-;
      [apply store_outside; exact Hq | reflexivity].
  - destruct (cast_ref CArrayObjClass Obj); injection Hset as _ <-;
      [apply memcpy_spec; exact Hq | reflexivity].
  - injection Hset as _ <-. reflexivity.
Qed.

(** What a [get] returns depends on the bytes of the location only. *)
Lemma get_depends `{Platform} (Ty : Type_) (Ptr : Z) (m m' : mem) :
  (forall q : Z, Ptr <= q < Ptr + getSize Ty ->
     load_byte m' q = load_byte m q) ->
  (get Ty Ptr m').1 = (get Ty Ptr m).1.
Proof.
  intros Hagree. unfold get.
  destruct Ty as [Kind| |Pointee|Elt N|C|C|Ret Params];
    cbn [switch_ sw_basic sw_enum sw_pointer sw_array sw_func sw_struct
         sw_union ValueGetter.switch];
    try reflexivity;
    unfold ValueGetter.case_basic, ValueGetter.case_enum,
      mbind, M_bind, bind, gets, mret, M_ret, ret; cbn [fst];
    do 2 f_equal; apply load_agree; exact Hagree.
Qed.

(** X6.  Elements of an array do not interfere: whatever [set] does at
    index [I] of an array whose elements are not structs or unions, [get]
    at another index [J] returns what it returned before. *)
Theorem array_set_other_index `{Platform} (Elt : Type_) (D : DataVoid)
    (I J : Z) (Obj : PyObject) (m m' : mem) (r : result unit) :
  is_composite Elt = false ->
  I <> J ->
  CArrayObj_set Elt D I Obj m = (r, m') ->
  (CArrayObj_get Elt D J m').1 = (CArrayObj_get Elt D J m).1.
Proof.
  intros Hcomp Hne Hset. unfold CArrayObj_get, CArrayObj_set in *.
  apply get_depends. intros q Hq.
  apply (set_footprint Elt _ Obj m m' r Hcomp Hset).
  unfold GEP in *. nia.
Qed.

Lemma array_set_other_index_witness :
  (CArrayObj_get (H := lp64) (BasicType UInt8) (view_void 10) 0
     (CArrayObj_set (H := lp64) (BasicType UInt8) (view_void 10) 1
        (PyLong 33) example_mem).2).1
  = (CArrayObj_get (H := lp64) (BasicType UInt8) (view_void 10) 0
       example_mem).1.
Proof.
  apply (array_set_other_index (H := lp64) (BasicType UInt8) (view_void 10)
           1 0 (PyLong 33) example_mem _ (Ok tt));
    [reflexivity | discriminate | reflexivity].
Defined.

(** X7.  Fields of a composite do not interfere: whatever [setValue] does
    on a field that is not itself a struct or a union, [getValue] of a
    field whose bytes do not overlap it returns what it returned
    before. *)
Theorem field_set_other_field `{Platform} (D : DataVoid)
    (F G : string * Type_ * Z) (Obj : PyObject) (m m' : mem)
    (r : result unit) :
  is_composite F.1.2 = false ->
  F.2 + getSize F.1.2 <= G.2 \/ G.2 + getSize G.1.2 <= F.2 ->
  CCompositeObj_setValue D F Obj m = (r, m') ->
  (CCompositeObj_getValue D G m').1 = (CCompositeObj_getValue D G m).1.
Proof.
  intros Hcomp Hdisj Hset.
  unfold CCompositeObj_getValue, CCompositeObj_setValue in *.
  apply get_depends. intros q Hq.
  apply (set_footprint F.1.2 _ Obj m m' r Hcomp Hset).
  unfold getFieldData in *. lia.
Qed.

(** The struct [Point {int32 x; int32 y;}] of the spec, at address [10]:
    setting [y] to [7] leaves [x]. *)
Lemma field_set_other_field_witness :
  (CCompositeObj_getValue (H := lp64) (view_void 10)
     ("x", BasicType Int32, 0)
     (CCompositeObj_setValue (H := lp64) (view_void 10)
        ("y", BasicType Int32, 4) (PyLong 7) example_mem).2).1
  = (CCompositeObj_getValue (H := lp64) (view_void 10)
       ("x", BasicType Int32, 0) example_mem).1.
Proof.
  apply (field_set_other_field (H := lp64) (view_void 10)
           ("y", BasicType Int32, 4) ("x", BasicType Int32, 0) (PyLong 7)
           example_mem _ (Ok tt)).
  - reflexivity.
  - right. vm_compute. discriminate.
  - reflexivity.
Defined.

(** X8.  A [set] on a location whose type is not a struct or a union
    writes inside the location only: every byte at an address before the
    location, or at or after its end, is as it was, whether the [set]
    succeeds or throws. *)
Theorem set_writes_inside `{Platform} (Ty : Type_) (Ptr : Z)
    (Obj : PyObject) (m m' : mem) (r : result unit) (q : Z) :
  is_composite Ty = false ->
  set Ty Ptr Obj m = (r, m') ->
  q < Ptr \/ Ptr + getSize Ty <= q ->
  load_byte m' q = load_byte m q.
Proof. intros Hcomp Hset Hq. exact (set_footprint Ty Ptr Obj m m' r Hcomp Hset q Hq). Qed.

Lemma set_writes_inside_witness :
  load_byte (set (H := lp64) (BasicType Int16) 10 (PyLong 513) example_mem).2
    12
  = load_byte example_mem 12.
Proof.
  apply (set_writes_inside (H := lp64) (BasicType Int16) 10 (PyLong 513)
           example_mem _ (Ok tt) 12);
    [reflexivity | reflexivity | right; vm_compute; discriminate].
Defined.

(** ** The holders of a conversion *)

(** How the conversion of a pointer argument goes: the supplied pointer
    handle, the conversion of a string, or the conversion of a buffer. *)
Lemma case_pointer_cases `{Platform} `{HostRuntime} (Pointee : QualType)
    (Obj : PyObject) :
  (exists PtrObj : CObj,
     Obj = PyCObj PtrObj
     /\ ConvertArgsSwitch.case_pointer Pointee Obj = mret (Some PtrObj))
  \/ (dyn_cast_obj CPointerObjClass Obj = None
      /\ is_const_char Pointee = true
      /\ ConvertArgsSwitch.case_pointer Pointee Obj
         = ConvertArgsSwitch.string_shortcut (PointerType Pointee) Obj)
  \/ (dyn_cast_obj CPointerObjClass Obj = None
      /\ is_const_char Pointee = false
      /\ ConvertArgsSwitch.case_pointer Pointee Obj
         = ConvertArgsSwitch.buffer_path (PointerType Pointee) Pointee
             (negb (hasConst Pointee)) Obj).
Proof.
  destruct (dyn_cast_obj CPointerObjClass Obj) as [PtrObj|] eqn:Hdyn.
  - left. exists PtrObj. unfold ConvertArgsSwitch.case_pointer.
    rewrite Hdyn. split; [|reflexivity].
    destruct Obj as [| | | | | |Co]; try discriminate. simpl in Hdyn.
    destruct (isinstance Co CPointerObjClass); congruence.
  - right. destruct (is_const_char Pointee) eqn:Hcc; [left | right];
      (split; [reflexivity|]); (split; [reflexivity|]).
    + apply case_pointer_string; assumption.
    + apply case_pointer_buffer; assumption.
Qed.

(** What the conversion of a buffer does, by its result. *)
Lemma buffer_path_inv `{Platform} `{HostRuntime} (Ty : Type_)
    (PteTy : QualType) (w : bool) (Obj : PyObject)
    (s s' : ConvertArgsSwitch.Holders) (r : result (option CObj)) :
  ConvertArgsSwitch.buffer_path Ty PteTy w Obj s = (r, s') ->
  (exists e : exn, r = Throw e /\ s' = s)
  \/ (exists Info : buffer_info,
        request Obj w = Ok Info
        /\ bi_ndim Info = 1
        /\ bi_format Info = getFormatDescriptor (getType PteTy)
        /\ r = Ok (Some (CPointerObj Ty (emplace_owned (bi_ptr Info))))
        /\ s' = (s.1 ++ [CPointerObj Ty (emplace_owned (bi_ptr Info))],
                 s.2)).
Proof.
  unfold ConvertArgsSwitch.buffer_path. monad_simpl.
  destruct (request Obj w) as [Info|e]; [|intros [= <- <-]; eauto].
  destruct (Z.eqb_spec (bi_ndim Info) 1); [|intros [= <- <-]; eauto].
  destruct (String.eqb_spec (bi_format Info)
              (getFormatDescriptor (getType PteTy)));
    intros [= <- <-]; [right | left]; eauto 10.
Qed.

(** What the conversion of a string does, by its result. *)
Lemma string_shortcut_inv `{Platform} `{HostRuntime} (Ty : Type_)
    (Obj : PyObject) (s s' : ConvertArgsSwitch.Holders)
    (r : result (option CObj)) :
  ConvertArgsSwitch.string_shortcut Ty Obj s = (r, s') ->
  (exists e : exn, r = Throw e /\ s' = s)
  \/ (exists (ob_sval : Z) (bs : list Z),
        Obj = PyBytes ob_sval bs
        /\ r = Ok (Some (CPointerObj Ty (emplace_owned ob_sval)))
        /\ s' = (s.1 ++ [CPointerObj Ty (emplace_owned ob_sval)], s.2))
  \/ (exists (cps : list Z) (ob_sval : Z) (enc : list Z),
        Obj = PyUnicode cps
        /\ PyUnicode_AsUTF8String cps = Some (ob_sval, enc)
        /\ r = Ok (Some (CPointerObj Ty (emplace_owned ob_sval)))
        /\ s' = (s.1 ++ [CPointerObj Ty (emplace_owned ob_sval)],
                 s.2 ++ [PyBytes ob_sval enc])).
Proof.
  unfold ConvertArgsSwitch.string_shortcut. monad_simpl.
  destruct Obj as [| | |cps|ob_sval bs| |]; simpl;
    try (intros [= <- <-]; left; eauto; fail).
  - destruct (PyUnicode_AsUTF8String cps) as [[ob_sval enc]|] eqn:Henc;
      simpl; intros [= <- <-]; [right; right | left]; eauto 10.
  - intros [= <- <-]. right. left. eauto 10.
Qed.

(** What the conversion of a scalar does, by its result. *)
Lemma case_basic_inv `{Platform} `{HostRuntime} (T : CType)
    (Kind : BasicKind) (Obj : PyObject) (s s' : ConvertArgsSwitch.Holders)
    (r : result (option CObj)) :
  ConvertArgsSwitch.case_basic T Kind Obj s = (r, s') ->
  (exists e : exn, r = Throw e /\ s' = s)
  \/ (exists Co : CObj, Obj = PyCObj Co /\ r = Ok (Some Co) /\ s' = s)
  \/ (exists v : Z,
        cast_to T Obj = Ok v
        /\ r = Ok (Some (CBasicObj T (BasicType Kind) (emplace_owned v)))
        /\ s' = (s.1 ++ [CBasicObj T (BasicType Kind) (emplace_owned v)],
                 s.2)).
Proof.
  unfold ConvertArgsSwitch.case_basic.
  destruct (dyn_cast_obj (CBasicObjClass T) Obj) as [Ret|] eqn:Hdyn.
  - intros [= <- <-]. right. left. exists Ret. split; [|auto].
    destruct Obj as [| | | | | |Co]; try discriminate. simpl in Hdyn.
    destruct (isinstance Co (CBasicObjClass T)); congruence.
  - monad_simpl. destruct (cast_to T Obj) as [v|e] eqn:Hcast;
      intros [= <- <-]; [right; right | left]; eauto 10.
Qed.

(** What the conversion to a block or function handle does, by its
    result. *)
Lemma cast_ptr_inv (C : CObjClass) (Obj : PyObject) :
  cast_ptr C Obj = Throw cast_error
  \/ (Obj = PyNone /\ cast_ptr C Obj = Ok None)
  \/ (exists Co : CObj, Obj = PyCObj Co /\ cast_ptr C Obj = Ok (Some Co)).
Proof.
  destruct Obj as [| | | | | |Co]; simpl; auto.
  destruct (isinstance Co C); eauto.
Qed.

Ltac conv_inv :=
  first
    [ solve [eauto 10]
    | right; right; right; eexists; split; [reflexivity|];
      split; [reflexivity|]; split; [reflexivity|]; eauto 10 ].

(** The result of a conversion, whatever the parameter type: a throw with
    the holders as they were; the null handle, for [None] supplied for
    an Array, Struct, Union or Function parameter; the supplied handle
    itself, with the holders as they were; or a new scalar or pointer
    handle with storage of its own, added at the end of [ObjsHolder],
    while [PyObjsHolder] is as it was or has gained the encoding of the
    supplied string. *)
Lemma ConvertArgs_inv `{Platform} `{HostRuntime} (ATy : QualType)
    (A : PyObject) (s s' : ConvertArgsSwitch.Holders)
    (r : result (option CObj)) :
  ConvertArgs ATy A s = (r, s') ->
  (exists e : exn, r = Throw e /\ s' = s)
  \/ (A = PyNone /\ is_block_or_function (getType ATy) = true
      /\ r = Ok None /\ s' = s)
  \/ (exists Co : CObj, A = PyCObj Co /\ r = Ok (Some Co) /\ s' = s)
  \/ (exists Co : CObj,
        r = Ok (Some Co)
        /\ is_owned_scalar Co = true
        /\ s'.1 = s.1 ++ [Co]
        /\ (s'.2 = s.2
            \/ exists (cps : list Z) (ob_sval : Z) (enc : list Z),
                 A = PyUnicode cps
                 /\ PyUnicode_AsUTF8String cps = Some (ob_sval, enc)
                 /\ s'.2 = s.2 ++ [PyBytes ob_sval enc])).
Proof.
  destruct ATy as [Ty c]. unfold ConvertArgs.
  destruct Ty as [Kind| |Pointee|Elt N|C|C|Ret Params];
    cbn [switch_ getType sw_basic sw_enum sw_pointer sw_array sw_func
         sw_struct sw_union ConvertArgsSwitch.switch is_block_or_function];
    intros Hconv.
  - apply case_basic_inv in Hconv
      as [?|[(Co & -> & -> & ->)|(v & _ & -> & ->)]]; conv_inv.
  - apply case_basic_inv in Hconv
      as [?|[(Co & -> & -> & ->)|(v & _ & -> & ->)]]; conv_inv.
  - destruct (case_pointer_cases Pointee A)
      as [(PtrObj & -> & Heq)|[(_ & _ & Heq)|(_ & _ & Heq)]];
      rewrite Heq in Hconv.
    + injection Hconv as <- <-. conv_inv.
    + apply string_shortcut_inv in Hconv
        as [?|[(ob & bs & -> & -> & ->)
              |(cps & ob & enc & -> & Henc & -> & ->)]];
        conv_inv.
    + apply buffer_path_inv in Hconv
        as [?|(Info & _ & _ & _ & -> & ->)]; conv_inv.
  - unfold ConvertArgsSwitch.case_array, ConvertArgsSwitch.checkType in Hconv.
    monad_simpl.
    destruct (cast_ptr_inv CArrayObjClass A)
      as [Hc|[[-> Hc]|(Co & -> & Hc)]]; rewrite Hc in Hconv;
      injection Hconv as <- <-; eauto 10.
  - unfold ConvertArgsSwitch.case_composite_struct,
      ConvertArgsSwitch.checkType in Hconv.
    monad_simpl.
    destruct (cast_ptr_inv CStructObjClass A)
      as [Hc|[[-> Hc]|(Co & -> & Hc)]]; rewrite Hc in Hconv;
      injection Hconv as <- <-; eauto 10.
  - unfold ConvertArgsSwitch.case_composite_union,
      ConvertArgsSwitch.checkType in Hconv.
    monad_simpl.
    destruct (cast_ptr_inv CUnionObjClass A)
      as [Hc|[[-> Hc]|(Co & -> & Hc)]]; rewrite Hc in Hconv;
      injection Hconv as <- <-; eauto 10.
  - unfold ConvertArgsSwitch.case_func, ConvertArgsSwitch.checkType in Hconv.
    monad_simpl.
    destruct (cast_ptr_inv CFunctionClass A)
      as [Hc|[[-> Hc]|(Co & -> & Hc)]]; rewrite Hc in Hconv;
      injection Hconv as <- <-; eauto 10.
Qed.

(** X9.  A conversion that throws leaves the two holders of the call as
    they were, for every parameter type and host value. *)
Theorem convert_throw_keeps_holders `{Platform} `{HostRuntime}
    (ATy : QualType) (A : PyObject) (s s' : ConvertArgsSwitch.Holders)
    (e : exn) :
  ConvertArgs ATy A s = (Throw e, s') -> s' = s.
Proof.
  intros Hconv.
  destruct (ConvertArgs_inv ATy A s s' _ Hconv)
    as [(e' & _ & Hs)|[(_ & _ & Hr & _)|[(Co & _ & Hr & _)|(Co & Hr & _)]]];
    [exact Hs | discriminate..].
Qed.

Lemma convert_throw_keeps_holders_witness :
  (ConvertArgs (H := lp64) (H0 := example_host) const_char_ptr
     (PyUnicode [233]) ([CFunction add], [PyNone])).2
  = ([CFunction add], [PyNone]).
Proof.
  apply (convert_throw_keeps_holders (H := lp64) (H0 := example_host)
           const_char_ptr (PyUnicode [233]) ([CFunction add], [PyNone]) _
           (TypeError "Unable to extract string contents! (encoding issue)")).
  reflexivity.
Defined.

(** X10.  A conversion that returns a handle returns either the handle it
    was given, with the holders as they were, or a new scalar or pointer
    handle with storage of its own, which it has put at the end of
    [ObjsHolder]; [PyObjsHolder] is then as it was or has gained, at its
    end, the encoding of the supplied string.  So every handle a
    conversion creates is held until the holders go. *)
Theorem convert_result_retained `{Platform} `{HostRuntime} (ATy : QualType)
    (A : PyObject) (Co : CObj) (s s' : ConvertArgsSwitch.Holders) :
  ConvertArgs ATy A s = (Ok (Some Co), s') ->
  (A = PyCObj Co /\ s' = s)
  \/ (is_owned_scalar Co = true
      /\ s'.1 = s.1 ++ [Co]
      /\ (s'.2 = s.2
          \/ exists (cps : list Z) (ob_sval : Z) (enc : list Z),
               A = PyUnicode cps
               /\ PyUnicode_AsUTF8String cps = Some (ob_sval, enc)
               /\ s'.2 = s.2 ++ [PyBytes ob_sval enc])).
Proof.
  intros Hconv.
  destruct (ConvertArgs_inv ATy A s s' _ Hconv)
    as [(e' & Hr & _)|[(_ & _ & Hr & _)
       |[(Co' & HA & Hr & Hs)|(Co' & Hr & Hown & HH & HPy)]]];
    try discriminate; injection Hr as <-; auto.
Qed.

Lemma convert_result_retained_witness :
  (PyLong 5 = PyCObj (CBasicObj c_int32_t (BasicType Int32) (emplace_owned 5))
   /\ ([CBasicObj c_int32_t (BasicType Int32) (emplace_owned 5)], [])
      = (([], []) : ConvertArgsSwitch.Holders))
  \/ (is_owned_scalar
        (CBasicObj c_int32_t (BasicType Int32) (emplace_owned 5)) = true
      /\ [CBasicObj c_int32_t (BasicType Int32) (emplace_owned 5)]
         = [] ++ [CBasicObj c_int32_t (BasicType Int32) (emplace_owned 5)]
      /\ ([] = ([] : list PyObject)
          \/ exists (cps : list Z) (ob_sval : Z) (enc : list Z),
               PyLong 5 = PyUnicode cps
               /\ PyUnicode_AsUTF8String (HostRuntime := example_host) cps
                  = Some (ob_sval, enc)
               /\ [] = [] ++ [PyBytes ob_sval enc])).
Proof.
  apply (convert_result_retained (H := lp64) (H0 := example_host) int_
           (PyLong 5)
           (CBasicObj c_int32_t (BasicType Int32) (emplace_owned 5))
           ([], [])
           ([CBasicObj c_int32_t (BasicType Int32) (emplace_owned 5)], [])).
  reflexivity.
Defined.

(** X11.  A conversion returns the null handle exactly when [None] is
    supplied for an Array, Struct, Union or Function parameter, and then
    the holders are as they were.  The loop of [CFunction::call] makes no
    test for it before it takes the address of the handle's data, so the
    call is undefined. *)
Theorem convert_null_iff_None `{Platform} `{HostRuntime} (ATy : QualType)
    (A : PyObject) (s s' : ConvertArgsSwitch.Holders) :
  (ConvertArgs ATy A s = (Ok None, s')
   <-> A = PyNone /\ is_block_or_function (getType ATy) = true /\ s' = s)
  /\ (forall (Params : list QualType) (Args : list PyObject) (I : nat)
        (Ptrs : list CObj),
        Params !! I = Some ATy ->
        is_block_or_function (getType ATy) = true ->
        convert_args Params (PyNone :: Args) I Ptrs s = inl Undefined).
Proof.
  assert (Hnone : is_block_or_function (getType ATy) = true ->
                  ConvertArgs ATy PyNone s = (Ok None, s)).
  { destruct ATy as [Ty c]. destruct Ty; simpl; try discriminate;
      reflexivity. }
  split; [split|].
  - intros Hconv.
    destruct (ConvertArgs_inv ATy A s s' _ Hconv)
      as [(e' & Hr & _)|[(HA & Hk & _ & Hs)
         |[(Co' & _ & Hr & _)|(Co' & Hr & _)]]];
      try discriminate; auto.
  - intros (-> & Hk & ->). auto.
  - intros Params Args I Ptrs HI Hk. cbn [convert_args].
    rewrite HI, (Hnone Hk). reflexivity.
Qed.

Lemma convert_null_iff_None_witness :
  ConvertArgs (H := lp64) (H0 := example_host) (mkQualType struct_A false)
    PyNone ([], [])
  = (Ok None, ([], []))
  /\ convert_args (H := lp64) (H0 := example_host)
       [mkQualType struct_A false] [PyNone] 0 [] ([], [])
     = inl Undefined.
Proof.
  destruct (convert_null_iff_None (H := lp64) (H0 := example_host)
              (mkQualType struct_A false) PyNone ([], []) ([], []))
    as [Hiff Hcall].
  split.
  - apply Hiff. repeat split.
  - apply Hcall; reflexivity.
Defined.

(** ** The call *)

(** X12.  Call ordering.  When the loop of [CFunction::call] ends
    normally, it has converted every argument, the argument of index [i]
    against the parameter of index [i], and the addresses it passes on are
    those of the resulting handles, in the order of the arguments. *)
Theorem convert_args_in_order `{Platform} `{HostRuntime}
    (Params : list QualType) (Args : list PyObject) (I : nat)
    (Ptrs Ptrs' : list CObj) (s s' : ConvertArgsSwitch.Holders) :
  convert_args Params Args I Ptrs s = inr (Ptrs', s') ->
  exists AObjs : list CObj,
    Ptrs' = Ptrs ++ AObjs
    /\ length AObjs = length Args
    /\ forall (i : nat) (A : PyObject) (AObj : CObj),
         Args !! i = Some A -> AObjs !! i = Some AObj ->
         exists (ATy : QualType) (s1 s2 : ConvertArgsSwitch.Holders),
           Params !! (I + i)%nat = Some ATy
           /\ ConvertArgs ATy A s1 = (Ok (Some AObj), s2).
Proof.
  revert I Ptrs s. induction Args as [|A0 Args IH]; intros I Ptrs s; simpl.
  - intros [= <- <-]. exists []. rewrite app_nil_r.
    repeat split. intros i A AObj Hi. discriminate.
  - destruct (Params !! I) as [ATy|] eqn:HI; [|discriminate].
    destruct (ConvertArgs ATy A0 s) as [[[AObj0|]|e] s1] eqn:Hconv;
      try discriminate.
    intros Hrec. apply IH in Hrec as (AObjs & -> & Hlen & Hall).
    exists (AObj0 :: AObjs). rewrite <- app_assoc. simpl.
    repeat split; [now rewrite Hlen|].
    intros [|i] A AObj HA HAObj; simpl in *.
    + injection HA as <-. injection HAObj as <-.
      exists ATy, s, s1. rewrite Nat.add_0_r. auto.
    + destruct (Hall i A AObj HA HAObj) as (ATy' & s2 & s3 & HP & Hc).
      exists ATy', s2, s3. rewrite <- HP, <- Hc. split; [f_equal; lia | auto].
Qed.

Lemma convert_args_in_order_witness :
  exists AObjs : list CObj,
    [CBasicObj c_int32_t (BasicType Int32) (emplace_owned 2);
     CBasicObj c_int32_t (BasicType Int32) (emplace_owned 3)]
    = [] ++ AObjs
    /\ length AObjs = length [PyLong 2; PyLong 3].
Proof.
  destruct (convert_args_in_order (H := lp64) (H0 := example_host)
              [int_; int_] [PyLong 2; PyLong 3] 0 []
              [CBasicObj c_int32_t (BasicType Int32) (emplace_owned 2);
               CBasicObj c_int32_t (BasicType Int32) (emplace_owned 3)]
              ([], [])
              ([CBasicObj c_int32_t (BasicType Int32) (emplace_owned 2);
                CBasicObj c_int32_t (BasicType Int32) (emplace_owned 3)], [])
              eq_refl)
    as (AObjs & Heq & Hlen & _).
  exists AObjs. split; assumption.
Defined.

(** X13.  A call whose number of arguments is not the number of parameters
    never returns a value, in either build: it stops on the [assert], or a
    conversion throws, or it runs into undefined behaviour. *)
Theorem call_wrong_arity_never_returns `{Platform} `{HostRuntime}
    (NDEBUG : bool) (NF : NativeFunc) (Args : list PyObject)
    (V : PyObject) :
  length Args <> length (getParams NF) ->
  CFunction_call NDEBUG NF Args <> Returns V.
Proof.
  intros Hne. destruct NDEBUG.
  2:{ rewrite (call_arity_assert NF Args Hne). discriminate. }
  unfold CFunction_call. cbn [negb andb].
  destruct (convert_args (getParams NF) Args 0 [] ([], []))
    as [stop|[Ptrs s']] eqn:Hloop.
  - destruct Args as [|A Args]; [discriminate|]. cbn [convert_args] in Hloop.
    destruct (getParams NF !! 0%nat) as [ATy|]; [|now injection Hloop as <-].
    destruct (ConvertArgs ATy A ([], [])) as [[[AObj|]|e] s1];
      try (now injection Hloop as <-).
    clear -Hloop. revert Hloop. generalize 1%nat ([] ++ [AObj]) s1.
    induction Args as [|A' Args IH]; intros I Ptrs s; simpl; [discriminate|].
    destruct (getParams NF !! I) as [ATy'|]; [|now intros [= <-]].
    destruct (ConvertArgs ATy' A' s) as [[[AObj'|]|e] s2];
      try (now intros [= <-]).
    apply IH.
  - apply convert_args_length in Hloop as [Hle Hlen].
    destruct (Nat.ltb_spec (length Ptrs) (length (getParams NF)));
      [discriminate|].
    exfalso. simpl in Hlen.
    destruct Args as [|A Args]; [simpl in *; lia|].
    specialize (Hle ltac:(discriminate)). simpl in *. lia.
Qed.

Lemma call_wrong_arity_never_returns_witness :
  CFunction_call (H := lp64) (H0 := example_host) true add
    [PyLong 2; PyLong 3; PyLong 4]
  <> Returns PyNone.
Proof.
  apply (call_wrong_arity_never_returns (H := lp64) (H0 := example_host)
           true add [PyLong 2; PyLong 3; PyLong 4] PyNone).
  discriminate.
Defined.

(** ** Converted values and buffers *)

(** X14.  The conversion of a host value of a Basic kind, for a parameter
    of that kind, creates a scalar handle with storage of its own, held in
    [ObjsHolder], whose content reads back as the host value. *)
Theorem convert_value_of_kind `{Platform} `{HostRuntime} (Kind : BasicKind)
    (c : bool) (v : PyObject) (s : ConvertArgsSwitch.Holders) :
  value_of_kind Kind v ->
  exists x : Z,
    ConvertArgs (mkQualType (BasicType Kind) c) v s
    = (Ok (Some (CBasicObj (CTypeOf Kind) (BasicType Kind) (emplace_owned x))),
       (s.1 ++ [CBasicObj (CTypeOf Kind) (BasicType Kind) (emplace_owned x)],
        s.2))
    /\ 0 <= x < 2 ^ bits (CTypeOf Kind)
    /\ py_cast (CTypeOf Kind) x = v.
Proof.
  intros Hv. unfold ConvertArgs.
  cbn [switch_ getType sw_basic ConvertArgsSwitch.switch].
  unfold ConvertArgsSwitch.case_basic.
  destruct Hv as [Kind z Hint Hchar Hz | ch Hc | b Hb | f Hf];
    cbn [dyn_cast_obj]; monad_simpl.
  - destruct (integer_cast_roundtrip Kind z Hint Hchar Hz)
      as (Hcast & Hrange & Hback).
    rewrite Hcast. eauto.
  - destruct (Z.leb_spec 0 ch); [|lia]. destruct (Z.ltb_spec ch 256); [|lia].
    simpl. exists ch. split; [reflexivity|]. split; [exact Hc | reflexivity].
  - exists b. split; [reflexivity|]. split; [exact Hb | reflexivity].
  - destruct (float_roundtrip f Hf) as [Hrange Hback].
    eexists. split; [reflexivity|]. split; [exact Hrange|].
    cbn [py_cast CTypeOf]. now rewrite Hback.
Qed.

Lemma convert_value_of_kind_witness :
  exists x : Z,
    ConvertArgs (H := lp64) (H0 := example_host)
      (mkQualType (BasicType Int16) false) (PyLong (-2)) ([], [])
    = (Ok (Some (CBasicObj c_int16_t (BasicType Int16) (emplace_owned x))),
       ([CBasicObj c_int16_t (BasicType Int16) (emplace_owned x)], []))
    /\ py_cast (H := lp64) c_int16_t x = PyLong (-2).
Proof.
  destruct (convert_value_of_kind (H := lp64) (H0 := example_host) Int16
              false (PyLong (-2)) ([], []))
    as (x & Hconv & _ & Hback).
  - apply value_integer;
      [reflexivity | discriminate | vm_compute; split; discriminate].
  - exists x. split; [exact Hconv | exact Hback].
Defined.

(** X15.  A host value that exports a one-dimensional buffer of the format
    of the pointee, supplied for a pointer parameter whose pointee is not
    a [const char], is converted to a pointer handle with storage of its
    own that holds the address of the buffer and is held in [ObjsHolder];
    nothing is copied.  Write access is requested exactly when the
    pointee is not const: a read-only exporter is then refused by the host
    runtime. *)
Theorem convert_buffer `{Platform} `{HostRuntime} (Pointee : QualType)
    (c : bool) (Obj : PyObject) (Info : buffer_info) (ReadOnly : bool)
    (s : ConvertArgsSwitch.Holders) :
  is_const_char Pointee = false ->
  exported_buffer Obj = Some (Info, ReadOnly) ->
  bi_ndim Info = 1 ->
  bi_format Info = getFormatDescriptor (getType Pointee) ->
  ConvertArgs (mkQualType (PointerType Pointee) c) Obj s
  = if negb (hasConst Pointee) && ReadOnly
    then (Throw error_already_set, s)
    else (Ok (Some (CPointerObj (PointerType Pointee)
                      (emplace_owned (bi_ptr Info)))),
          (s.1 ++ [CPointerObj (PointerType Pointee)
                     (emplace_owned (bi_ptr Info))], s.2)).
Proof.
  intros Hcc Hexp Hndim Hfmt. unfold ConvertArgs.
  cbn [switch_ getType sw_pointer ConvertArgsSwitch.switch].
  assert (Hdyn : dyn_cast_obj CPointerObjClass Obj = None).
  { destruct Obj; try reflexivity; discriminate. }
  rewrite (case_pointer_buffer Pointee Obj Hdyn Hcc).
  unfold ConvertArgsSwitch.buffer_path, request. rewrite Hexp. monad_simpl.
  destruct (negb (hasConst Pointee) && ReadOnly); [reflexivity|].
  simpl. rewrite Hndim, Hfmt, String.eqb_refl. reflexivity.
Qed.

Lemma convert_buffer_witness :
  ConvertArgs (H := lp64) (H0 := example_host) char_ptr
    (PyBuffer (mk_buffer_info 900 1 "b" 1 10) true) ([], [])
  = (Throw error_already_set, ([], []))
  /\ ConvertArgs (H := lp64) (H0 := example_host)
       (mkQualType (PointerType (mkQualType (BasicType UInt8) true)) false)
       (PyBytes 700 [104; 105]) ([], [])
     = (Ok (Some (CPointerObj
                    (PointerType (mkQualType (BasicType UInt8) true))
                    (emplace_owned 700))),
        ([CPointerObj (PointerType (mkQualType (BasicType UInt8) true))
            (emplace_owned 700)], [])).
Proof.
  split.
  - exact (convert_buffer (H := lp64) (H0 := example_host) char_ false
             (PyBuffer (mk_buffer_info 900 1 "b" 1 10) true)
             (mk_buffer_info 900 1 "b" 1 10) true ([], [])
             eq_refl eq_refl eq_refl eq_refl).
  - exact (convert_buffer (H := lp64) (H0 := example_host)
             (mkQualType (BasicType UInt8) true) false
             (PyBytes 700 [104; 105])
             (mk_buffer_info 700 1 "B" 1 2) true ([], [])
             eq_refl eq_refl eq_refl eq_refl).
Defined.

(** X16.  The format [getFormatDescriptor] gives a Basic type identifies
    its kind among the kinds other than [char]; the format of [char] is
    that of [int8_t] where [char] is signed and of [uint8_t] where it is
    not, so that a buffer of either is interchangeable with one of
    [char]. *)
Theorem format_identifies_kind `{Platform} (K1 K2 : BasicKind) :
  (K1 <> Char -> K2 <> Char ->
   getFormatDescriptor (BasicType K1) = getFormatDescriptor (BasicType K2) ->
   K1 = K2)
  /\ getFormatDescriptor (BasicType Char)
     = getFormatDescriptor
         (BasicType (if char_is_signed then Int8 else UInt8)).
Proof.
  split.
  - intros H1 H2. destruct K1, K2; simpl; intros Heq;
      first [reflexivity | contradiction | discriminate].
  - simpl. destruct char_is_signed; reflexivity.
Qed.

Lemma format_identifies_kind_witness :
  (getFormatDescriptor (H := lp64) (BasicType Int32)
   = getFormatDescriptor (H := lp64) (BasicType Int32) ->
   Int32 = Int32)
  /\ getFormatDescriptor (H := lp64) (BasicType Char)
     = getFormatDescriptor (H := lp64) (BasicType Int8).
Proof.
  destruct (format_identifies_kind (H := lp64) Int32 Int32) as [Hinj Hchar].
  split; [apply Hinj; discriminate | exact Hchar].
Defined.

(** ** Handles made by this file *)

Lemma CType_eqb_refl (T : CType) : CType_eqb T T = true.
Proof. destruct T; reflexivity. Qed.

(** X17.  The handles this file makes for a type are accepted as they are
    as arguments for a parameter of that type, with nothing added to the
    holders: the handle [CreateObj] allocates, and the view
    [CPointerObj::getObj] gives of the pointee of a pointer. *)
Theorem made_handles_convert `{Platform} `{HostRuntime} (Ty : Type_)
    (c : bool) (s : ConvertArgsSwitch.Holders) :
  ConvertArgs (mkQualType Ty c) (PyCObj (CreateObj Ty)) s
  = (Ok (Some (CreateObj Ty)), s)
  /\ (forall (D : Data) (m : mem),
        ConvertArgs (mkQualType Ty c)
          (PyCObj (CPointerObj_getObj (mkQualType Ty c) D m)) s
        = (Ok (Some (CPointerObj_getObj (mkQualType Ty c) D m)), s)).
Proof.
  unfold ConvertArgs, CreateObj, CPointerObj_getObj.
  destruct Ty as [Kind| |Pointee|Elt N|C|C|Ret Params]; split; intros;
    cbn [switch_ getType sw_basic sw_enum sw_pointer sw_array sw_func
         sw_struct sw_union ConvertArgsSwitch.switch CreateObjSwitch.switch
         PtrToObjView.switch];
    unfold ConvertArgsSwitch.case_enum, ConvertArgsSwitch.case_basic,
      ConvertArgsSwitch.case_pointer, ConvertArgsSwitch.case_array,
      ConvertArgsSwitch.case_composite_struct,
      ConvertArgsSwitch.case_composite_union, ConvertArgsSwitch.case_func,
      CreateObjSwitch.case_basic, CreateObjSwitch.case_enum,
      PtrToObjView.case_basic, PtrToObjView.case_enum;
    cbn [dyn_cast_obj isinstance]; rewrite ?CType_eqb_refl; reflexivity.
Qed.

(** X18.  The handle [CreateObj] allocates for a type, and the view
    [PtrToObjView] gives at an address for a type, have the size of that
    type; their type is that type, except for an enum, where it is the
    type of [int]: no handle is ever typed by an enum. *)
Theorem made_handles_type `{Platform} `{HostRuntime} (Ty : Type_) (Ptr : Z) :
  CObj_getSize (CreateObj Ty) = getSize Ty
  /\ CObj_getSize (switch_ PtrToObjView.switch Ty Ptr) = getSize Ty
  /\ CObj_getType (CreateObj Ty)
     = match Ty with EnumType => BasicType Int32 | _ => Ty end
  /\ CObj_getType (switch_ PtrToObjView.switch Ty Ptr)
     = match Ty with EnumType => BasicType Int32 | _ => Ty end.
Proof.
  unfold CObj_getSize, CreateObj.
  destruct Ty as [Kind| |Pointee|Elt N|[]|[]|Ret Params]; repeat split.
Qed.

(** ** More on casts and views *)

(** X19.  A cast to a pointer type always succeeds, from a pointer handle,
    an array handle or a composite handle alike.  The result is a pointer
    handle of the target type with storage of its own: it holds the
    address the source pointer held at the time of the cast, or the address
    of the source block, whatever is written to memory afterwards. *)
Theorem cast_to_pointer `{Platform} (Pointee : QualType) (m m' : mem) :
  (forall D : Data,
     exists Co : CObj,
       CPointerObj_cast D (PointerType Pointee) m = Some Co
       /\ CObj_getType Co = PointerType Pointee
       /\ is_owned_scalar Co = true
       /\ CObj_getPtr Co m' = getPtr D m)
  /\ (forall (Ty : Type_) (D : DataVoid),
        exists Co : CObj,
          CArrayObj_cast Ty D (PointerType Pointee) = Some Co
          /\ CCompositeObj_cast Ty D (PointerType Pointee) = Some Co
          /\ CObj_getType Co = PointerType Pointee
          /\ is_owned_scalar Co = true
          /\ CObj_getPtr Co m' = getDataVoid D).
Proof. split; intros; eexists; repeat split. Qed.

(** X20.  An array or composite cast can be undone: when a cast between
    array types, or between struct or union types, succeeds and the
    address is also a multiple of the alignment of the source type, the
    cast of the result to the source type succeeds, and gives a view of
    the source type at the address of the source. *)
Theorem block_cast_back `{Platform} (Ty To : Type_) (D : DataVoid)
    (Co : CObj) :
  getDataVoid D mod getAlign Ty = 0 ->
  (forall Elt N, Ty = ArrayType Elt N ->
     CArrayObj_cast Ty D To = Some Co ->
     is_pointer To = false ->
     exists D' : DataVoid,
       Co = CArrayObj To D'
       /\ CArrayObj_cast To D' Ty
          = Some (CArrayObj Ty (view_void (getDataVoid D))))
  /\ (is_composite Ty = true ->
      CCompositeObj_cast Ty D To = Some Co ->
      is_pointer To = false ->
      exists (D' : DataVoid) (Co' : CObj),
        CObj_getType Co = To
        /\ CObj_getData Co = getDataVoid D'
        /\ CCompositeObj_cast To D' Ty = Some Co'
        /\ CObj_getType Co' = Ty
        /\ CObj_getData Co' = getDataVoid D
        /\ isinstance Co' (handle_class Ty) = true).
Proof.
  intros Halign. split.
  - intros Elt N -> Hcast Hptr. unfold CArrayObj_cast in *.
    destruct To as [| | |Elt' N'| | |]; try discriminate.
    destruct (Z.eqb_spec (getSize (ArrayType Elt' N'))
                (getSize (ArrayType Elt N))) as [Hsz|]; [|discriminate].
    destruct (Z.eqb_spec (getDataVoid D mod getAlign (ArrayType Elt' N')) 0);
      [|discriminate].
    injection Hcast as <-. eexists. split; [reflexivity|].
    cbn [getDataVoid]. rewrite <- Hsz, Z.eqb_refl, Halign. reflexivity.
  - intros Hcomp Hcast Hptr. unfold CCompositeObj_cast in *.
    destruct To as [| | | |C'|C'|]; try discriminate;
      match type of Hcast with
      | (if (?a =? ?b) && (?c =? ?d) then _ else _) = _ =>
          destruct (Z.eqb_spec a b) as [Hsz|]; [|discriminate];
          destruct (Z.eqb_spec c d); [|discriminate]
      end;
      injection Hcast as <-;
      exists (view_void (getDataVoid D));
      destruct Ty as [| | | |C|C|]; try discriminate;
      eexists; cbn [getDataVoid CObj_getType CObj_getData];
      rewrite <- Hsz, Z.eqb_refl, Halign; repeat split.
Qed.

Lemma block_cast_back_witness :
  exists D' : DataVoid,
    CArrayObj (ArrayType (BasicType Int64) 2) (view_void 64)
    = CArrayObj (ArrayType (BasicType Int64) 2) D'
    /\ CArrayObj_cast (H := lp64) (ArrayType (BasicType Int64) 2) D'
         (ArrayType (BasicType Int32) 4)
       = Some (CArrayObj (ArrayType (BasicType Int32) 4) (view_void 64)).
Proof.
  apply (proj1 (block_cast_back (H := lp64) (ArrayType (BasicType Int32) 4)
                  (ArrayType (BasicType Int64) 2) (owned_void 64)
                  (CArrayObj (ArrayType (BasicType Int64) 2) (view_void 64))
                  eq_refl)
           (BasicType Int32) 4);
    reflexivity.
Defined.



(** X22.  Reading a struct or union from one location and writing it to
    another copies it: [get] returns a view of the first location, and
    [set] of the second location with that view gives it the bytes of the
    first, as many as the type has, when the two do not overlap. *)
Theorem composite_get_then_set `{Platform} (C : Composite) (P Q : Z)
    (m : mem) :
  disjoint Q P (getSize (StructType C)) ->
  (exists (v : PyObject) (m' : mem),
     get (StructType C) P m = (Ok v, m)
     /\ set (StructType C) Q v m = (Ok tt, m')
     /\ load_bytes m' Q (Z.to_nat (getSize (StructType C)))
        = load_bytes m P (Z.to_nat (getSize (StructType C)))
     /\ load_bytes m' P (Z.to_nat (getSize (StructType C)))
        = load_bytes m P (Z.to_nat (getSize (StructType C))))
  /\ (exists (v : PyObject) (m' : mem),
        get (UnionType C) P m = (Ok v, m)
        /\ set (UnionType C) Q v m = (Ok tt, m')
        /\ load_bytes m' Q (Z.to_nat (getSize (UnionType C)))
           = load_bytes m P (Z.to_nat (getSize (UnionType C)))
        /\ load_bytes m' P (Z.to_nat (getSize (UnionType C)))
           = load_bytes m P (Z.to_nat (getSize (UnionType C)))).
Proof.
  intros Hdisj. split.
  - destruct (case_composite_copies CStructObjClass C
                (CStructObj (StructType C) (view_void P)) Q m eq_refl Hdisj)
      as (m' & Hset & Hdst & Hsrc & _).
    exists (PyCObj (CStructObj (StructType C) (view_void P))), m'. auto.
  - destruct (case_composite_copies CUnionObjClass C
                (CUnionObj (UnionType C) (view_void P)) Q m eq_refl Hdisj)
      as (m' & Hset & Hdst & Hsrc & _).
    exists (PyCObj (CUnionObj (UnionType C) (view_void P))), m'. auto.
Qed.

Lemma composite_get_then_set_witness :
  exists (v : PyObject) (m' : mem),
    get (H := lp64) struct_A 10 example_mem = (Ok v, example_mem)
    /\ set (H := lp64) struct_A 200 v example_mem = (Ok tt, m')
    /\ load_bytes m' 200 (Z.to_nat 4) = load_bytes example_mem 10 (Z.to_nat 4).
Proof.
  assert (Hd : disjoint 200 10
                 (getSize (H := lp64) (StructType (mkComposite "A" [] 4 4)))).
  { right. vm_compute. discriminate. }
  destruct (proj1 (composite_get_then_set (H := lp64)
                     (mkComposite "A" [] 4 4) 10 200 example_mem Hd))
    as (v & m' & Hget & Hset & Hdst & _).
  exists v, m'. split; [exact Hget|]. split; [exact Hset | exact Hdst].
Defined.
